(** * 3d-heat-map: pattern engine, colour mapper and frame generators

    Shallow embedding of the computational core of
    - [src/components/heat-map.tsx]        (2D grid renderer),
    - [src/components/heat-map-hybrid.tsx] (float-array generator, cube grid),
    - [src/components/heat-map-shader.tsx] (fragment shader, instanced cubes).

    JavaScript numbers are IEEE doubles.  The pattern formulas use [Math.sin],
    [Math.sqrt] and [Math.atan2], so the pattern engine is embedded over the
    real numbers (the idealisation of double arithmetic); a result that is not
    a finite number ([NaN], produced by [x % 0]) is [None].  The colour mapper
    only compares, floors and scales its argument, so it is embedded over the
    rationals, where every definition computes. *)

From Stdlib Require Import Reals ZArith QArith Qround Lia Lra String List.
From stdpp Require Import gmap list.
Import ListNotations.

(* ===================================================================== *)
(** * JavaScript and GLSL number primitives *)
(* ===================================================================== *)

Module JS.
Local Open Scope R_scope.

(** A JavaScript number: [Some r] is the finite value [r], [None] is a
    value that is not a finite number ([NaN]). *)
Definition number : Type := option R.

(** [Math.floor] on a finite number. *)
Definition floor (x : R) : Z := Int_part x.

(** Rounding towards zero, the quotient used by [%]. *)
Definition trunc (x : R) : Z :=
  if Rle_dec 0 x then floor x else (- floor (- x))%Z.

(** [a % b]: the remainder has the sign of the dividend [a]; the result is
    [NaN] when the divisor is zero. *)
Definition rem (a b : R) : number :=
  if Req_dec_T b 0 then None else Some (a - b * IZR (trunc (a / b))).

(** [a / b] for a finite [a]; a zero divisor gives [NaN] or an infinity,
    neither of which is a finite number. *)
Definition div (a b : R) : number :=
  if Req_dec_T b 0 then None else Some (a / b).

(** [Math.atan2(y, x)], by quadrant, with range (-PI, PI]. *)
Definition atan2 (y x : R) : R :=
  if Rlt_dec 0 x then atan (y / x)
  else if Rlt_dec x 0 then
    (if Rle_dec 0 y then atan (y / x) + PI else atan (y / x) - PI)
  else if Rlt_dec 0 y then PI / 2
  else if Rlt_dec y 0 then - (PI / 2)
  else 0.

(** [x === 0 ? a : b] and friends on finite numbers. *)
Definition eqb (x y : R) : bool := if Req_dec_T x y then true else false.

(** Sequencing of computations that may produce [NaN]: an arithmetic
    operation on [NaN] is [NaN]. *)
Definition bind {A B : Type} (m : option A) (k : A -> option B) : option B :=
  match m with
  | Some a => k a
  | None => None
  end.

(** [for (let i = 0; i < bound; i++) body]: the loop variable starts at 0
    and the body runs while [i < bound], that is [bound] times for a
    positive integer bound and not at all otherwise.  The loop state
    (the arrays the body writes to) is threaded through. *)
Fixpoint for_from {St : Type} (n : nat) (i : Z) (body : Z -> St -> St)
    (s : St) : St :=
  match n with
  | O => s
  | S n' => for_from n' (i + 1)%Z body (body i s)
  end.

Definition for_lt {St : Type} (bound : Z) (body : Z -> St -> St) (s : St)
    : St :=
  for_from (Z.to_nat bound) 0%Z body s.
End JS.

Notation "'let?' x := m 'in' k" := (JS.bind m (fun x => k))
  (at level 10, x name, m at level 100, k at level 200).

(** GLSL builtins used by the fragment shader. *)
Module GLSL.
Local Open Scope R_scope.

(** [mod(x, y) = x - y * floor(x / y)]; undefined for [y = 0]. *)
Definition mod_ (x y : R) : option R :=
  if Req_dec_T y 0 then None
  else Some (x - y * IZR (JS.floor (x / y))).

(** [length(v)] of a [vec2]. *)
Definition length (v : R * R) : R := sqrt (fst v * fst v + snd v * snd v).

(** Two-argument [atan(y, x)]. *)
Definition atan (y x : R) : R := JS.atan2 y x.
End GLSL.

(* ===================================================================== *)
(** * Data model *)
(* ===================================================================== *)

(** [type PatternType = "waves" | "ripples" | "gradient" | "checkerboard" | "spiral"] *)
Inductive PatternType : Type :=
  | waves | ripples | gradient | checkerboard | spiral.

(** [type ColorTheme = "github" | "heat" | "ocean" | "rainbow" | "monochrome" | "purple"] *)
Inductive ColorTheme : Type :=
  | github | heat | ocean | rainbow | monochrome | purple.

(** The strings returned by [getColor]: a hex literal, or the template
    [hsl(${h}, ${s}%, ${l}%)] with its three printed numbers.  A number is
    printed from its value, so the components are kept in lowest terms. *)
Inductive ColorValue : Type :=
  | Hex (s : string)
  | Hsl (h s l : Q).

(** The object literal [{ col, row, count }] pushed by the grid renderers.
    [count] is [None] when the computed count is [NaN]. *)
Record Cell : Type := mkCell {
  col : Z;
  row : Z;
  count : option Z
}.

(* ===================================================================== *)
(** * Colour mapper *)
(* ===================================================================== *)

(** The arithmetic of [getColor] and [getIntensityLabel] is exact on the
    counts they receive, so [count] ranges over the rationals. *)
Module ColorMapper.
Local Open Scope Q_scope.
Local Open Scope string_scope.

(** [Math.max(0, Math.min(10, Math.floor(count)))] *)
Definition clamp (count : Q) : Z := Z.max 0 (Z.min 10 (Qfloor count)).

(** The five-step ladder shared by the stepped themes:
    [if (c === 0) .. if (c <= 2) .. if (c <= 5) .. if (c <= 8) .. return ..]. *)
Definition steps {A : Type} (c : Q) (c0 c2 c5 c8 c10 : A) : A :=
  if Qeq_bool c 0 then c0
  else if Qle_bool c 2 then c2
  else if Qle_bool c 5 then c5
  else if Qle_bool c 8 then c8
  else c10.

(** The body of the [switch (theme)], on the number [c] it tests. *)
Definition themeColor (c : Q) (theme : ColorTheme) : ColorValue :=
  match theme with
  | github =>
      steps c (Hex "#ebedf0") (Hex "#9be9a8") (Hex "#40c463")
              (Hex "#30a14e") (Hex "#216e39")
  | heat =>
      steps c (Hex "#f8f9fa") (Hex "#ffccbc") (Hex "#ff8a65")
              (Hex "#e64a19") (Hex "#bf360c")
  | ocean =>
      steps c (Hex "#f5f5f5") (Hex "#bbdefb") (Hex "#64b5f6")
              (Hex "#1976d2") (Hex "#0d47a1")
  | rainbow =>
      let hue := (c / 10) * 300 in
      Hsl (Qred hue) 80 60
  | monochrome =>
      let lightness := 90 - c * 8 in
      Hsl 0 0 (Qred lightness)
  | purple =>
      steps c (Hex "#f3e5f5") (Hex "#ce93d8") (Hex "#9c27b0")
              (Hex "#6a1b9a") (Hex "#4a148c")
  end.

(** heat-map.tsx, [getColor(count)]: the GitHub ladder, no theme, the
    count is tested as it comes. *)
Definition getColor_grid2d (count : Q) : ColorValue :=
  steps count (Hex "#ebedf0") (Hex "#9be9a8") (Hex "#40c463")
              (Hex "#30a14e") (Hex "#216e39").

(** heat-map-shader.tsx, [getColor(count, theme)] (and the second
    [getColor] of heat-map-hybrid.tsx, which has the same text): the
    [switch] on the count as it comes. *)
Definition getColor_shader (count : Q) (theme : ColorTheme) : ColorValue :=
  themeColor count theme.

(** heat-map-hybrid.tsx, first [getColor(count, theme)]: the [switch] on
    [safeCount]. *)
Definition getColor_hybrid (count : Q) (theme : ColorTheme) : ColorValue :=
  let safeCount := clamp count in
  themeColor (inject_Z safeCount) theme.

(** [getIntensityLabel(count)], the same text in heat-map.tsx and
    heat-map-hybrid.tsx. *)
Definition getIntensityLabel (count : Q) : string :=
  steps count "No activity" "Low activity" "Medium activity"
              "High activity" "Very high activity".
End ColorMapper.

(* ===================================================================== *)
(** * Pattern engine (CPU) *)
(* ===================================================================== *)

(** The body of the [switch (patternType)] of [generatePattern].  The grid
    size [columns], [rows] is captured from the enclosing component. *)
Module PatternEngine.
Local Open Scope R_scope.

Section Switch.
Variables columns rows : Z.

Definition centerX : R := IZR columns / 2.
Definition centerY : R := IZR rows / 2.

(** [(col + row + Math.floor(time / 5)) % 2 === 0]; a comparison with
    [NaN] is false. *)
Definition isEven (time : R) (col row : Z) : bool :=
  match JS.rem (IZR col + IZR row + IZR (JS.floor (time / 5))) 2 with
  | Some parity => JS.eqb parity 0
  | None => false
  end.

(** heat-map-hybrid.tsx, [PatternGenerator.generatePattern], lines
    107-151: the intensity [value] stored for one cell. *)
Definition valueAt (patternType : PatternType) (time : R) (col row : Z)
    : JS.number :=
  match patternType with
  | waves =>
      let value :=
        sin (IZR col * 0.2 + time * 0.1) + sin (IZR row * 0.2 + time * 0.1) in
      Some ((value + 2) / 4)
  | ripples =>
      let dx := IZR col - centerX in
      let dy := IZR row - centerY in
      let distance := sqrt (dx * dx + dy * dy) in
      let rippleValue := sin (distance * 0.5 - time * 0.2) in
      Some ((rippleValue + 1) / 2)
  | gradient =>
      let? gradientValue := JS.rem (IZR col + IZR row + time) (IZR columns) in
      JS.div gradientValue (IZR columns)
  | checkerboard =>
      Some (if isEven time col row then 1 else 0)
  | spiral =>
      let spiralDx := IZR col - centerX in
      let spiralDy := IZR row - centerY in
      let spiralDistance := sqrt (spiralDx * spiralDx + spiralDy * spiralDy) in
      let angle := JS.atan2 spiralDy spiralDx in
      let? spiralValue :=
        JS.rem (angle + spiralDistance * 0.1 + time * 0.05) (2 * PI) in
      JS.div spiralValue (2 * PI)
  end.

(** heat-map.tsx, [generatePattern], lines 47-95 (the same text is in
    [Grid.generatePattern] of heat-map-hybrid.tsx and in
    [InstancedCubes.generatePattern] of heat-map-shader.tsx): the
    [count] of one cell. *)
Definition countAt (patternType : PatternType) (time : R) (col row : Z)
    : option Z :=
  match patternType with
  | waves =>
      let value :=
        sin (IZR col * 0.2 + time * 0.1) + sin (IZR row * 0.2 + time * 0.1) in
      Some (JS.floor (((value + 2) / 4) * 10))
  | ripples =>
      let dx := IZR col - centerX in
      let dy := IZR row - centerY in
      let distance := sqrt (dx * dx + dy * dy) in
      let rippleValue := sin (distance * 0.5 - time * 0.2) in
      Some (JS.floor (((rippleValue + 1) / 2) * 10))
  | gradient =>
      let? gradientValue := JS.rem (IZR col + IZR row + time) (IZR columns) in
      let? ratio := JS.div gradientValue (IZR columns) in
      Some (JS.floor (ratio * 10))
  | checkerboard =>
      Some (if isEven time col row then 10%Z else 0%Z)
  | spiral =>
      let spiralDx := IZR col - centerX in
      let spiralDy := IZR row - centerY in
      let spiralDistance := sqrt (spiralDx * spiralDx + spiralDy * spiralDy) in
      let angle := JS.atan2 spiralDy spiralDx in
      let? spiralValue :=
        JS.rem (angle + spiralDistance * 0.1 + time * 0.05) (2 * PI) in
      let? ratio := JS.div spiralValue (2 * PI) in
      Some (JS.floor (ratio * 10))
  end.

(** heat-map-hybrid.tsx, [Cubes], line 204:
    [const count = Math.floor(value * 10)]. *)
Definition countOfValue (value : JS.number) : option Z :=
  let? v := value in Some (JS.floor (v * 10)).
End Switch.
End PatternEngine.

(* ===================================================================== *)
(** * Pattern engine (GPU fragment shader) *)
(* ===================================================================== *)

Module Shader.
Local Open Scope R_scope.

(** [createShaderMaterial]: the pattern name as the integer uniform. *)
Definition patternIndex (pattern : PatternType) : Z :=
  match pattern with
  | waves => 0
  | ripples => 1
  | gradient => 2
  | checkerboard => 3
  | spiral => 4
  end.

Section Uniforms.
(** [uniform vec2 resolution] *)
Variable resolution : R * R.

(** [float getPatternValue(vec2 pos, int patternType, float time)] *)
Definition getPatternValue (pos : R * R) (patternType : Z) (time : R)
    : option R :=
  let scaledPos := (fst pos * fst resolution, snd pos * snd resolution) in
  let center := (fst resolution * 0.5, snd resolution * 0.5) in
  if (patternType =? 0)%Z then
    let value :=
      sin (fst scaledPos * 0.2 + time) + sin (snd scaledPos * 0.2 + time) in
    Some ((value + 2.0) / 4.0)
  else if (patternType =? 1)%Z then
    let centered := (fst scaledPos - fst center, snd scaledPos - snd center) in
    let dist := GLSL.length centered in
    let value := sin (dist * 0.5 - time) in
    Some ((value + 1.0) / 2.0)
  else if (patternType =? 2)%Z then
    let? m :=
      GLSL.mod_ (fst scaledPos + snd scaledPos + time * 5.0) (fst resolution) in
    let gradValue := m / fst resolution in
    Some gradValue
  else if (patternType =? 3)%Z then
    let timeOffset := IZR (JS.floor (time * 0.2)) in
    let isEven :=
      GLSL.mod_ (IZR (JS.floor (fst scaledPos)) + IZR (JS.floor (snd scaledPos))
                 + timeOffset) 2.0 in
    isEven
  else if (patternType =? 4)%Z then
    let centered := (fst scaledPos - fst center, snd scaledPos - snd center) in
    let angle := GLSL.atan (snd centered) (fst centered) in
    let dist := GLSL.length centered in
    let? m := GLSL.mod_ (angle + dist * 0.1 + time * 0.5) 6.28 in
    let spiralValue := m / 6.28 in
    Some spiralValue
  else Some 0.5.

(** The texture coordinate [vUv] whose scaled position is the corner
    [(col, row)] of a cell. *)
Definition cellUv (col row : Z) : R * R :=
  (IZR col / fst resolution, IZR row / snd resolution).
End Uniforms.
End Shader.

(* ===================================================================== *)
(** * Object store *)
(* ===================================================================== *)

(** Arrays are JavaScript objects: a frame handed to a consumer is a
    reference, and two references may name the same array.  The store maps
    references to the arrays they name. *)
Module Store.
Definition loc : Type := positive.

Inductive obj : Type :=
  | CellArray (cells : list Cell)
  | Float32Array (data : list JS.number).

Abbreviation heap := (gmap loc obj).

(** [const newData = []] or [new Float32Array(n)]: the new object gets a
    reference that names no existing object. *)
Definition alloc (h : heap) (o : obj) : heap * loc :=
  let l := fresh (dom h) in (<[l := o]> h, l).

(** [a.push(cell)] on the array named by [a]. *)
Definition push (a : loc) (cell : Cell) (h : heap) : heap :=
  match h !! a with
  | Some (CellArray cells) => <[a := CellArray (cells ++ [cell])]> h
  | _ => h
  end.

(** [a[i] = value] on the typed array named by [a]; a write past the end
    is ignored. *)
Definition write (a : loc) (i : Z) (value : JS.number) (h : heap) : heap :=
  match h !! a with
  | Some (Float32Array data) =>
      <[a := Float32Array (<[Z.to_nat i := value]> data)]> h
  | _ => h
  end.
End Store.

(* ===================================================================== *)
(** * Frame generators *)
(* ===================================================================== *)

(** heat-map.tsx, [HeatMap.generatePattern] (lines 38-102), and the same
    text in [Grid.generatePattern] of heat-map-hybrid.tsx. *)
Module Grid2D.
Section Component.
Variables columns rows : Z.

(** The contents of [newData] through the two nested loops. *)
Definition generatePattern (patternType : PatternType) (time : R)
    : list Cell :=
  let newData : list Cell := [] in
  JS.for_lt columns (fun col newData =>
    JS.for_lt rows (fun row newData =>
      let count := PatternEngine.countAt columns rows patternType time col row in
      newData ++ [mkCell col row count])
    newData)
  newData.

(** The call on the store: [newData] is a new array, every iteration
    pushes to it, and the result is the reference to it. *)
Definition generatePattern_heap (h : Store.heap)
    (patternType : PatternType) (time : R) : Store.heap * Store.loc :=
  let '(h, newData) := Store.alloc h (Store.CellArray []) in
  let h :=
    JS.for_lt columns (fun col h =>
      JS.for_lt rows (fun row h =>
        let count := PatternEngine.countAt columns rows patternType time col row in
        Store.push newData (mkCell col row count) h)
      h)
    h in
  (h, newData).
End Component.

(** heat-map.tsx fixes the grid: [const columns = 52], [const rows = 20]. *)
Definition columns : Z := 52.
Definition rows : Z := 20.
End Grid2D.

(** heat-map-hybrid.tsx, [PatternGenerator] (lines 81-168). *)
Module PatternGenerator.
Section Component.
Variables columns rows : Z.

(** The contents of [data] through the loop of [generatePattern]; a write
    past the end of a typed array is ignored. *)
Definition generatePattern (patternType : PatternType) (time : R)
    (data : list JS.number) : list JS.number :=
  JS.for_lt (columns * rows) (fun i data =>
    let col := Z.rem i columns in
    let row := (i / columns)%Z in
    let value := PatternEngine.valueAt columns rows patternType time col row in
    <[Z.to_nat i := value]> data)
  data.

(** [const dataRef = useRef(new Float32Array(columns * rows))] *)
Variable dataRef : Store.loc.

(** The call on the store: [data] is the reference [dataRef.current],
    every iteration writes through it, and the reference passed to
    [onUpdate] is that same reference. *)
Definition generatePattern_heap (h : Store.heap)
    (patternType : PatternType) (time : R) : Store.heap * Store.loc :=
  let data := dataRef in
  let h :=
    JS.for_lt (columns * rows) (fun i h =>
      let col := Z.rem i columns in
      let row := (i / columns)%Z in
      let value := PatternEngine.valueAt columns rows patternType time col row in
      Store.write data i value h)
    h in
  (h, data).
End Component.
End PatternGenerator.

(* ===================================================================== *)
(** * Properties used in the statements *)
(* ===================================================================== *)

(** A call [gen] hands out a fresh frame from store [h] when the reference
    it returns named nothing in [h] and every object of [h] is unchanged
    afterwards. *)
Definition fresh_frame (h : Store.heap) (res : Store.heap * Store.loc) : Prop :=
  h !! res.2 = None /\
  forall (l : Store.loc) (o : Store.obj), h !! l = Some o -> res.1 !! l = Some o.

(** The store of a mounted hybrid generator on a one-cell grid: the
    reference 1 names its one-element float array. *)
Definition one_cell_store (v : R) : Store.heap :=
  {[ 1%positive := Store.Float32Array [Some v] ]}.

(** The coordinates of a cell. *)
Definition coords (c : Cell) : Z * Z := (col c, row c).

(** [0, n) as integers, the values taken by a loop variable. *)
Definition zrange (i : Z) (n : nat) : list Z :=
  List.map (fun k => (i + Z.of_nat k)%Z) (seq 0 n).

(* ===================================================================== *)
(** * Pattern cycling *)
(* ===================================================================== *)

(** The updater passed to [setPattern] by the 10-second timer, the same
    text in [HeatMap], [HeatMapHybrid], [HeatMap3D] and [HeatMapShader]. *)
Module Cycle.
Section Array.
Context {A : Type} `{EqDecision A}.

(** [array.indexOf(x)]: the index of the first element equal to [x], -1
    when there is none. *)
Fixpoint indexOf_from (l : list A) (x : A) (i : Z) : Z :=
  match l with
  | [] => (-1)%Z
  | y :: l' => if decide (y = x) then i else indexOf_from l' x (i + 1)%Z
  end.

Definition indexOf (l : list A) (x : A) : Z := indexOf_from l x 0%Z.

(** [array[i]]: [undefined] ([None]) outside the array. *)
Definition index (l : list A) (i : Z) : option A :=
  if (i <? 0)%Z then None else l !! Z.to_nat i.

(** [(prevPattern) => { const currentIndex = patterns.indexOf(prevPattern);
    const nextIndex = (currentIndex + 1) % patterns.length;
    return patterns[nextIndex] }] *)
Definition next (patterns : list A) (prevPattern : A) : option A :=
  let currentIndex := indexOf patterns prevPattern in
  let nextIndex := Z.rem (currentIndex + 1) (Z.of_nat (length patterns)) in
  index patterns nextIndex.
End Array.
End Cycle.

#[global] Instance PatternType_eq_dec : EqDecision PatternType.
Proof. solve_decision. Defined.

#[global] Instance ColorTheme_eq_dec : EqDecision ColorTheme.
Proof. solve_decision. Defined.

(** [const patterns: PatternType[] = ["waves", "ripples", "gradient",
    "checkerboard", "spiral"]] *)
Definition patterns : list PatternType :=
  [waves; ripples; gradient; checkerboard; spiral].

Definition nextPattern (prevPattern : PatternType) : option PatternType :=
  Cycle.next patterns prevPattern.

(** The pattern shown after [k] ticks of the timer. *)
Fixpoint afterTicks (k : nat) (p : PatternType) : option PatternType :=
  match k with
  | O => Some p
  | S k' => match afterTicks k' p with
            | Some q => nextPattern q
            | None => None
            end
  end.

(* ===================================================================== *)
(** * Legend and shader colour table *)
(* ===================================================================== *)

Module Legend.
(** [[0, 2, 5, 8, 10].map((count) => getColor(count, theme))]: the legend
    of heat-map-shader.tsx and of heat-map-hybrid.tsx, and the colour
    table [themeColors] that [createShaderMaterial] hands to the shader. *)
Definition getThemeColors (getColor : Q -> ColorTheme -> ColorValue)
    (theme : ColorTheme) : list ColorValue :=
  List.map (fun count => getColor count theme) [0%Q; 2%Q; 5%Q; 8%Q; 10%Q].

(** The themes whose [case] is the five-step ladder. *)
Definition stepped (theme : ColorTheme) : bool :=
  match theme with
  | rainbow | monochrome => false
  | _ => true
  end.
End Legend.

Module ShaderColor.
Local Open Scope R_scope.

(** [vec3 getThemeColor(float value)], on the table [uniform vec3
    colors[5]]. *)
Definition getThemeColor {A : Type} (colors : list A) (value : R) : option A :=
  if Rlt_dec value 0.05 then colors !! 0%nat
  else if Rlt_dec value 0.25 then colors !! 1%nat
  else if Rlt_dec value 0.5 then colors !! 2%nat
  else if Rlt_dec value 0.75 then colors !! 3%nat
  else colors !! 4%nat.
End ShaderColor.

(* ===================================================================== *)
(** * Cube transforms *)
(* ===================================================================== *)

(** The position and scale given to one instance by
    [tempObject.position.set] and [tempObject.scale.set]. *)
Record Transform : Type := mkTransform {
  position : R * R * R;
  scale : R * R * R
}.

(** The components of a [Vector3]. *)
Definition xOf (v : R * R * R) : R := fst (fst v).
Definition yOf (v : R * R * R) : R := snd (fst v).
Definition zOf (v : R * R * R) : R := snd v.

(** heat-map-hybrid.tsx, [Cubes] (lines 189-222), the body of the loop for
    the cell [(col, row)] whose stored intensity is [value].  The body runs
    for [i < columns * rows] only, so [columns] and [rows] are not zero
    there. *)
Module HybridCubes.
Local Open Scope R_scope.
Section Component.
Variables viewport_width viewport_height : R.
Variables columns rows : Z.

Definition width : R := viewport_width * 0.8.
Definition height : R := viewport_height * 0.8.
Definition cellWidth : R := width / IZR columns.
Definition cellHeight : R := height / IZR rows.

Definition instance (col row : Z) (value : R) : Transform :=
  let count := JS.floor (value * 10) in
  let x := - width / 2 + IZR col * cellWidth + cellWidth / 2 in
  let z := - height / 2 + IZR row * cellHeight + cellHeight / 2 in
  let y := IZR count * 0.05 in
  mkTransform (x, y / 2, z) (cellWidth * 0.9, Rmax y 0.05, cellHeight * 0.9).
End Component.
End HybridCubes.

(** heat-map-shader.tsx, [InstancedCubes.generatePattern] (lines 320-333),
    the transform of the cell [(col, row)] of count [count]. *)
Module InstancedCubes.
Local Open Scope R_scope.

(** [y || d]: [d] when [y] is 0, [y] otherwise. *)
Definition or_else (y d : R) : R := if Req_dec_T y 0 then d else y.

Section Component.
Variables viewport_width viewport_height : R.
Variables columns rows : Z.

Definition width : R := viewport_width * 0.8.
Definition height : R := viewport_height * 0.8.
Definition cellWidth : R := width / IZR columns.
Definition cellHeight : R := height / IZR rows.

Definition instance (col row : Z) (count : Z) : Transform :=
  let x := - width / 2 + IZR col * cellWidth + cellWidth / 2 in
  let z := - height / 2 + IZR row * cellHeight + cellHeight / 2 in
  let y := IZR count * 0.05 in
  mkTransform (x, y / 2, z) (cellWidth * 0.9, or_else y 0.05, cellHeight * 0.9).
End Component.
End InstancedCubes.

(* ===================================================================== *)
(** * Lemmas on the number primitives *)
(* ===================================================================== *)

Section NumberFacts.
Local Open Scope R_scope.

Lemma floor_bounds (x : R) :
  IZR (JS.floor x) <= x < IZR (JS.floor x) + 1.
Proof.
  unfold JS.floor. destruct (base_Int_part x) as [Hlo Hhi]. lra.
Qed.

Lemma floor_unique (x : R) (z : Z) :
  IZR z <= x < IZR z + 1 -> JS.floor x = z.
Proof.
  intros [Hlo Hhi]. unfold JS.floor. symmetry.
  apply Int_part_spec. lra.
Qed.

Lemma floor_IZR (z : Z) : JS.floor (IZR z) = z.
Proof. apply floor_unique. lra. Qed.

Lemma floor_le (x : R) (z : Z) : IZR z <= x -> (z <= JS.floor x)%Z.
Proof.
  intros Hz. destruct (floor_bounds x) as [_ Hhi].
  apply Z.lt_succ_r. apply lt_IZR. rewrite succ_IZR. lra.
Qed.

Lemma floor_lt (x : R) (z : Z) : x < IZR z -> (JS.floor x < z)%Z.
Proof.
  intros Hz. destruct (floor_bounds x) as [Hlo _].
  apply lt_IZR. lra.
Qed.

Lemma floor_upper (x : R) (z : Z) : x < IZR z + 1 -> (JS.floor x <= z)%Z.
Proof.
  intros Hz. apply Z.lt_succ_r. apply floor_lt. rewrite succ_IZR. exact Hz.
Qed.

(** Bounds of a quotient by a positive number, from bounds of the
    dividend. *)
Lemma div_bounds (a b lo hi : R) :
  0 < b -> lo * b <= a -> a < hi * b -> lo <= a / b < hi.
Proof.
  intros Hb Hlo Hhi.
  assert (Hq : a / b * b = a) by (field; lra).
  split.
  - apply Rmult_le_reg_r with b; [exact Hb | lra].
  - apply Rmult_lt_reg_r with b; [exact Hb | lra].
Qed.

Lemma trunc_nonneg (x : R) : 0 <= x -> JS.trunc x = JS.floor x.
Proof.
  intros Hx. unfold JS.trunc. destruct (Rle_dec 0 x); [reflexivity | lra].
Qed.

Lemma trunc_small (x : R) : -1 < x < 1 -> JS.trunc x = 0%Z.
Proof.
  intros [Hlo Hhi]. unfold JS.trunc. destruct (Rle_dec 0 x) as [Hx | Hx].
  - apply floor_unique. lra.
  - rewrite (floor_unique (- x) 0); [reflexivity | lra].
Qed.

(** A dividend smaller in magnitude than a positive divisor is its own
    remainder, sign included. *)
Lemma rem_small (a b : R) : 0 < b -> - b < a < b -> JS.rem a b = Some a.
Proof.
  intros Hb [Hlo Hhi]. unfold JS.rem.
  destruct (Req_dec_T b 0) as [Hz | _]; [lra |].
  rewrite trunc_small.
  - f_equal. lra.
  - assert (H : -1 <= a / b < 1) by (apply div_bounds; lra).
    assert (H' : a / b <> -1).
    { intros E. assert (Hq : a / b * b = a) by (field; lra).
      rewrite E in Hq. lra. }
    lra.
Qed.

(** On a non-negative dividend and a positive divisor, [%] and GLSL's
    [mod] agree. *)
Lemma rem_mod_nonneg (a b : R) :
  0 <= a -> 0 < b -> JS.rem a b = GLSL.mod_ a b.
Proof.
  intros Ha Hb. unfold JS.rem, GLSL.mod_.
  destruct (Req_dec_T b 0) as [Hz | _]; [lra |].
  rewrite trunc_nonneg; [reflexivity |].
  apply (div_bounds a b 0 (a / b + 1)); try lra.
  assert (Hq : a / b * b = a) by (field; lra). lra.
Qed.

(** The remainder modulo 2 of an integer is -1, 0 or 1. *)
Lemma rem_two_IZR (z : Z) :
  JS.rem (IZR z) 2 = Some (IZR (Z.rem z 2)).
Proof.
  unfold JS.rem. destruct (Req_dec_T 2 0) as [Hz | _]; [lra |].
  f_equal.
  assert (Ht : JS.trunc (IZR z / 2) = Z.quot z 2).
  { pose proof (Z.quot_rem' z 2) as Hqr.
    pose proof (Z.rem_bound_pos z 2) as Hpos.
    assert (Hr : IZR z = 2 * IZR (Z.quot z 2) + IZR (Z.rem z 2)).
    { rewrite Hqr at 1. rewrite plus_IZR, mult_IZR. reflexivity. }
    unfold JS.trunc. destruct (Rle_dec 0 (IZR z / 2)) as [Hx | Hx].
    - assert (Hz0 : (0 <= z)%Z).
      { apply le_IZR. lra. }
      assert (Hb : (0 <= Z.rem z 2 < 2)%Z) by lia.
      apply floor_unique.
      destruct Hb as [Hb1 Hb2]. apply IZR_le in Hb1. apply IZR_lt in Hb2.
      lra.
    - assert (Hz0 : (z < 0)%Z).
      { apply lt_IZR. lra. }
      assert (Hb : (-2 < Z.rem z 2 <= 0)%Z).
      { clear -Hz0. Z.quot_rem_to_equations. lia. }
      rewrite (floor_unique (- (IZR z / 2)) (- Z.quot z 2)); [lia |].
      destruct Hb as [Hb1 Hb2]. apply IZR_lt in Hb1. apply IZR_le in Hb2.
      rewrite opp_IZR. lra. }
  rewrite Ht.
  pose proof (Z.quot_rem' z 2) as Hqr.
  assert (Hr : IZR z = 2 * IZR (Z.quot z 2) + IZR (Z.rem z 2)).
  { rewrite Hqr at 1. rewrite plus_IZR, mult_IZR. reflexivity. }
  lra.
Qed.

Lemma atan2_neg_axis (y : R) : y < 0 -> JS.atan2 y 0 = - (PI / 2).
Proof.
  intros Hy. unfold JS.atan2.
  destruct (Rlt_dec 0 0) as [H | _]; [lra |].
  destruct (Rlt_dec 0 y) as [H | _]; [lra |].
  destruct (Rlt_dec y 0) as [_ | H]; [reflexivity | lra].
Qed.

Lemma PI_gt_3 : 3 < PI.
Proof. pose proof PI2_3_2. lra. Qed.
End NumberFacts.

(* ===================================================================== *)
(** * Pattern engine: range of the intensity and of the count *)
(* ===================================================================== *)

Section PatternFacts.
Local Open Scope R_scope.
Import PatternEngine.

(** The parity test of the checkerboard, on integers. *)
Lemma isEven_parity (time : R) (col row : Z) :
  isEven time col row
  = (Z.rem (col + row + JS.floor (time / 5)) 2 =? 0)%Z.
Proof.
  unfold isEven.
  rewrite <- !plus_IZR, rem_two_IZR. unfold JS.eqb.
  destruct (Req_dec_T _ 0) as [E | E].
  - apply eq_IZR in E. rewrite E. reflexivity.
  - symmetry. apply Z.eqb_neq. intros E'. apply E. rewrite E'. reflexivity.
Qed.

(** [Math.floor(value * 10)] of the stored intensity is the count the
    grid renderers compute directly. *)
Lemma countAt_countOfValue (columns rows : Z) (p : PatternType) (time : R)
    (col row : Z) :
  countOfValue (valueAt columns rows p time col row)
  = countAt columns rows p time col row.
Proof.
  destruct p; unfold countOfValue, valueAt, countAt; cbn [JS.bind];
    try reflexivity.
  - destruct (JS.rem _ _); cbn [JS.bind]; [| reflexivity].
    destruct (JS.div _ _); reflexivity.
  - destruct (isEven time col row); f_equal; apply floor_unique; lra.
  - destruct (JS.rem _ _); cbn [JS.bind]; [| reflexivity].
    destruct (JS.div _ _); reflexivity.
Qed.

(** Waves: the intensity is in [0,1] and the count in [0,10]. *)
Lemma waves_range (columns rows : Z) (time : R) (col row : Z) :
  exists v n,
    valueAt columns rows waves time col row = Some v /\ 0 <= v <= 1 /\
    countAt columns rows waves time col row = Some n /\ (0 <= n <= 10)%Z.
Proof.
  unfold valueAt, countAt.
  set (s1 := sin (IZR col * 0.2 + time * 0.1)).
  set (s2 := sin (IZR row * 0.2 + time * 0.1)).
  pose proof (SIN_bound (IZR col * 0.2 + time * 0.1)) as H1.
  pose proof (SIN_bound (IZR row * 0.2 + time * 0.1)) as H2.
  fold s1 in H1. fold s2 in H2.
  eexists; eexists; split; [reflexivity |].
  split; [lra |]. split; [reflexivity |].
  split.
  - apply floor_le. lra.
  - apply floor_upper. lra.
Qed.

(** Ripples: the intensity is in [0,1] and the count in [0,10]. *)
Lemma ripples_range (columns rows : Z) (time : R) (col row : Z) :
  exists v n,
    valueAt columns rows ripples time col row = Some v /\ 0 <= v <= 1 /\
    countAt columns rows ripples time col row = Some n /\ (0 <= n <= 10)%Z.
Proof.
  unfold valueAt, countAt.
  match goal with |- context [sin ?a] =>
    pose proof (SIN_bound a) as H; set (s := sin a) in *
  end.
  eexists; eexists; split; [reflexivity |].
  split; [lra |]. split; [reflexivity |].
  split.
  - apply floor_le. lra.
  - apply floor_upper. lra.
Qed.

(** The quotient [(a % b) / b] of a non-negative [a] by a positive [b] is
    in [0,1). *)
Lemma rem_div_range (a b : R) :
  0 <= a -> 0 < b ->
  exists v, (let? g := JS.rem a b in JS.div g b) = Some v /\ 0 <= v < 1.
Proof.
  intros Ha Hb. unfold JS.rem, JS.div.
  destruct (Req_dec_T b 0) as [E | _]; [lra |]. cbn [JS.bind].
  destruct (Req_dec_T b 0) as [E | _]; [lra |].
  eexists. split; [reflexivity |].
  assert (H0 : 0 <= a / b < a / b + 1).
  { apply div_bounds; try lra.
    assert (Hq : a / b * b = a) by (field; lra). lra. }
  rewrite trunc_nonneg by lra.
  destruct (floor_bounds (a / b)) as [Hlo Hhi].
  replace ((a - b * IZR (JS.floor (a / b))) / b)
    with (a / b - IZR (JS.floor (a / b))) by (field; lra).
  lra.
Qed.

(** An intensity in [0,1) quantises to a count in [0,9]. *)
Lemma countOfValue_range (v : R) :
  0 <= v < 1 ->
  exists n, countOfValue (Some v) = Some n /\ (0 <= n <= 9)%Z.
Proof.
  intros [Hlo Hhi]. unfold countOfValue. cbn [JS.bind].
  eexists. split; [reflexivity |]. split.
  - apply floor_le. lra.
  - apply floor_upper. lra.
Qed.

(** Gradient: where col + row + time is not negative the intensity is in
    [0,1) and the count in [0,9]. *)
Lemma gradient_range_nonneg (columns rows : Z) (time : R) (col row : Z) :
  (0 < columns)%Z -> 0 <= IZR col + IZR row + time ->
  exists v n,
    valueAt columns rows gradient time col row = Some v /\ 0 <= v < 1 /\
    countAt columns rows gradient time col row = Some n /\ (0 <= n <= 9)%Z.
Proof.
  intros Hc Hnn. apply IZR_lt in Hc.
  destruct (rem_div_range (IZR col + IZR row + time) (IZR columns) Hnn Hc)
    as (v & Ev & Hv).
  destruct (countOfValue_range v Hv) as (n & En & Hn).
  exists v, n. rewrite <- countAt_countOfValue.
  change (valueAt columns rows gradient time col row)
    with (let? g := JS.rem (IZR col + IZR row + time) (IZR columns) in
          JS.div g (IZR columns)).
  rewrite Ev. auto.
Qed.

(** Spiral: where angle + distance * 0.1 + time * 0.05 is not negative
    the intensity is in [0,1) and the count in [0,9]. *)
Lemma spiral_range_nonneg (columns rows : Z) (time : R) (col row : Z) :
  0 <= JS.atan2 (IZR row - centerY rows) (IZR col - centerX columns)
       + sqrt ((IZR col - centerX columns) * (IZR col - centerX columns)
               + (IZR row - centerY rows) * (IZR row - centerY rows)) * 0.1
       + time * 0.05 ->
  exists v n,
    valueAt columns rows spiral time col row = Some v /\ 0 <= v < 1 /\
    countAt columns rows spiral time col row = Some n /\ (0 <= n <= 9)%Z.
Proof.
  intros Hnn. pose proof PI_gt_3 as Hpi.
  destruct (rem_div_range _ (2 * PI) Hnn ltac:(lra)) as (v & Ev & Hv).
  destruct (countOfValue_range v Hv) as (n & En & Hn).
  exists v, n. rewrite <- countAt_countOfValue.
  unfold valueAt. cbv zeta. rewrite Ev. auto.
Qed.

(** Spiral below the centre of the 52 x 20 grid: during the first 27 time
    units the count of the cell (26, 9) is negative. *)
Lemma spiral_negative_early (time : R) :
  0 <= time <= 27 ->
  exists n,
    countAt Grid2D.columns Grid2D.rows spiral time 26 9 = Some n /\ (n < 0)%Z.
Proof.
  intros [Hlo Hhi].
  unfold countAt, centerX, centerY, Grid2D.columns, Grid2D.rows.
  replace (IZR 26 - IZR 52 / 2) with 0 by lra.
  replace (IZR 9 - IZR 20 / 2) with (-1) by lra.
  replace (0 * 0 + -1 * -1) with 1 by lra.
  rewrite sqrt_1, atan2_neg_axis by lra.
  pose proof PI_gt_3 as Hpi.
  rewrite rem_small by lra.
  cbn [JS.bind]. unfold JS.div.
  destruct (Req_dec_T (2 * PI) 0) as [E | _]; [lra |].
  cbn [JS.bind]. eexists. split; [reflexivity |].
  apply floor_lt.
  assert (H : -1 <= (- (PI / 2) + 1 * 0.1 + time * 0.05) / (2 * PI) < 0)
    by (apply div_bounds; lra).
  lra.
Qed.

(** Gradient under negative time: at the first cell the remainder keeps
    the sign of the time and the count is -1. *)
Lemma gradient_negative_time :
  countAt Grid2D.columns Grid2D.rows gradient (-1) 0 0 = Some (-1)%Z.
Proof.
  unfold countAt, Grid2D.columns.
  replace (IZR 0 + IZR 0 + -1) with (-1) by lra.
  rewrite (rem_small (-1) (IZR 52)) by lra.
  cbn [JS.bind]. unfold JS.div.
  destruct (Req_dec_T (IZR 52) 0) as [E | _]; [lra |].
  cbn [JS.bind]. f_equal. apply floor_unique. lra.
Qed.
End PatternFacts.

Section RangeClaims.
Local Open Scope R_scope.
Import PatternEngine.

(** C1.  The count is claimed never to be negative, expressly for the
    Spiral pattern.  In the 52 x 20 grid of heat-map.tsx, the cell
    (col 26, row 9) lies straight below the centre (26, 10):
    [Math.atan2(-1, 0)] is -PI/2, the distance is 1, and at time 1 the sum
    -PI/2 + 0.1 + 0.05 is negative; [%] keeps the sign, so the count is
    [Math.floor] of about -2.26, that is -3. *)
Theorem C1_spiral_count_is_negative :
  countAt Grid2D.columns Grid2D.rows spiral 1 26 9 = Some (-3)%Z.
Proof.
  unfold countAt, centerX, centerY, Grid2D.columns, Grid2D.rows.
  replace (IZR 26 - IZR 52 / 2) with 0 by lra.
  replace (IZR 9 - IZR 20 / 2) with (-1) by lra.
  replace (0 * 0 + -1 * -1) with 1 by lra.
  rewrite sqrt_1, atan2_neg_axis by lra.
  pose proof PI_gt_3 as Hpi.
  rewrite rem_small by lra.
  cbn [JS.bind]. unfold JS.div.
  destruct (Req_dec_T (2 * PI) 0) as [E | _]; [lra |].
  cbn [JS.bind]. f_equal. apply floor_unique.
  assert (H : -3 / 10 <= (- (PI / 2) + 1 * 0.1 + 1 * 0.05) / (2 * PI) < -2 / 10)
    by (apply div_bounds; lra).
  lra.
Qed.

(** C7.  Whatever the cell and the time, negative times included, the
    Checkerboard intensity is exactly 0 or exactly 1, and the count is
    exactly 0 or 10, both as computed by the grid renderers and as
    [Math.floor(value * 10)] of the stored intensity. *)
Theorem C7_checkerboard_binary (columns rows : Z) (time : R) (col row : Z) :
  (valueAt columns rows checkerboard time col row = Some 0 \/
   valueAt columns rows checkerboard time col row = Some 1) /\
  (countAt columns rows checkerboard time col row = Some 0%Z \/
   countAt columns rows checkerboard time col row = Some 10%Z) /\
  countOfValue (valueAt columns rows checkerboard time col row)
  = countAt columns rows checkerboard time col row.
Proof.
  split; [| split].
  - unfold valueAt. destruct (isEven time col row); [right | left]; reflexivity.
  - unfold countAt. destruct (isEven time col row); [right | left]; reflexivity.
  - apply countAt_countOfValue.
Qed.

(** At a negative time the parity expression is -1: the cell is not
    even, and its intensity is 0, not an intermediate value. *)
Lemma checkerboard_negative_time (columns rows : Z) :
  isEven (-5) 0 0 = false /\
  valueAt columns rows checkerboard (-5) 0 0 = Some 0.
Proof.
  assert (E : isEven (-5) 0 0 = false).
  { rewrite isEven_parity.
    rewrite (floor_unique (-5 / 5) (-1)) by lra. reflexivity. }
  split; [exact E |]. unfold valueAt. rewrite E. reflexivity.
Qed.
End RangeClaims.

(* ===================================================================== *)
(** * Colour mapper: clamp, band boundaries, labels *)
(* ===================================================================== *)

Section ColorFacts.
Local Open Scope Z_scope.
Import ColorMapper.

Lemma clamp_range (count : Q) : 0 <= clamp count <= 10.
Proof. unfold clamp. lia. Qed.

Lemma clamp_inject_Z (z : Z) : clamp (inject_Z z) = Z.max 0 (Z.min 10 z).
Proof. unfold clamp. rewrite Qfloor_Z. reflexivity. Qed.

(** Clamping a clamped count changes nothing. *)
Lemma clamp_idempotent (count : Q) :
  clamp (inject_Z (clamp count)) = clamp count.
Proof. rewrite clamp_inject_Z. pose proof (clamp_range count). lia. Qed.

(** The entry point of heat-map-hybrid.tsx that clamps does satisfy the
    clamp law, for every count and theme. *)
Lemma getColor_hybrid_clamp (count : Q) (theme : ColorTheme) :
  getColor_hybrid (inject_Z (clamp count)) theme = getColor_hybrid count theme.
Proof. unfold getColor_hybrid. rewrite clamp_idempotent. reflexivity. Qed.

(** On counts already in [0,10] the clamping and the plain entry points
    agree. *)
Lemma getColor_hybrid_shader_in_range (z : Z) (theme : ColorTheme) :
  0 <= z <= 10 ->
  getColor_hybrid (inject_Z z) theme = getColor_shader (inject_Z z) theme.
Proof.
  intros Hz. unfold getColor_hybrid, getColor_shader.
  rewrite clamp_inject_Z. replace (Z.max 0 (Z.min 10 z)) with z by lia.
  reflexivity.
Qed.

(** C3.  The clamp law [colorFor(clamp(count)) == colorFor(count)] at the
    count -3 (the Spiral count of the cell below the centre) and the theme
    Github, on the entry points that do not clamp: [getColor] of
    heat-map-shader.tsx and of heat-map.tsx put -3 in the band [count <= 2],
    while the clamped count 0 is in the band [count === 0]; the clamping
    [getColor] of heat-map-hybrid.tsx returns the colour of 0. *)
Theorem C3_unclamped_getColor_breaks_clamp_law :
  clamp (inject_Z (-3)) = 0 /\
  getColor_shader (inject_Z (-3)) github = Hex "#9be9a8" /\
  getColor_shader (inject_Z (clamp (inject_Z (-3)))) github = Hex "#ebedf0" /\
  getColor_grid2d (inject_Z (-3)) = Hex "#9be9a8" /\
  getColor_grid2d (inject_Z (clamp (inject_Z (-3)))) = Hex "#ebedf0" /\
  getColor_hybrid (inject_Z (-3)) github = Hex "#ebedf0".
Proof. repeat split; reflexivity. Qed.

(** The same holds for every negative integer count: the entry points
    without a clamp return the colour of the band 1-2. *)
Lemma getColor_shader_negative (z : Z) :
  z < 0 ->
  getColor_shader (inject_Z z) github = Hex "#9be9a8" /\
  getColor_shader (inject_Z (clamp (inject_Z z))) github = Hex "#ebedf0".
Proof.
  intros Hz. split.
  - unfold getColor_shader, themeColor, steps.
    assert (E0 : Qeq_bool (inject_Z z) 0 = false).
    { destruct (Qeq_bool (inject_Z z) 0) eqn:E; [| reflexivity].
      apply Qeq_bool_eq in E. unfold Qeq in E. simpl in E. lia. }
    assert (E2 : Qle_bool (inject_Z z) 2 = true).
    { apply Qle_bool_iff. unfold Qle. simpl. lia. }
    rewrite E0, E2. reflexivity.
  - rewrite clamp_inject_Z. replace (Z.max 0 (Z.min 10 z)) with 0 by lia.
    reflexivity.
Qed.

(** C6.  The literal Github colours at the band boundaries 0, 2, 3, 8
    and 9, for each of the three [getColor] functions. *)
Theorem C6_github_band_boundaries :
  (getColor_grid2d 0 = Hex "#ebedf0" /\
   getColor_grid2d 2 = Hex "#9be9a8" /\
   getColor_grid2d 3 = Hex "#40c463" /\
   getColor_grid2d 8 = Hex "#30a14e" /\
   getColor_grid2d 9 = Hex "#216e39") /\
  (getColor_hybrid 0 github = Hex "#ebedf0" /\
   getColor_hybrid 2 github = Hex "#9be9a8" /\
   getColor_hybrid 3 github = Hex "#40c463" /\
   getColor_hybrid 8 github = Hex "#30a14e" /\
   getColor_hybrid 9 github = Hex "#216e39") /\
  (getColor_shader 0 github = Hex "#ebedf0" /\
   getColor_shader 2 github = Hex "#9be9a8" /\
   getColor_shader 3 github = Hex "#40c463" /\
   getColor_shader 8 github = Hex "#30a14e" /\
   getColor_shader 9 github = Hex "#216e39").
Proof. repeat split; reflexivity. Qed.

(** The bands between the boundaries: 1-2, 3-5, 6-8 and 9-10. *)
Lemma github_bands (z : Z) :
  0 <= z <= 10 ->
  getColor_grid2d (inject_Z z)
  = if z =? 0 then Hex "#ebedf0"
    else if z <=? 2 then Hex "#9be9a8"
    else if z <=? 5 then Hex "#40c463"
    else if z <=? 8 then Hex "#30a14e"
    else Hex "#216e39".
Proof.
  intros Hz.
  assert (Hcases : z = 0 \/ z = 1 \/ z = 2 \/ z = 3 \/ z = 4 \/ z = 5 \/
                   z = 6 \/ z = 7 \/ z = 8 \/ z = 9 \/ z = 10) by lia.
  repeat (destruct Hcases as [-> | Hcases]; [reflexivity |]).
  subst z. reflexivity.
Qed.

(** C10.  A negative integer count is labelled "Low activity": the test
    [count === 0] fails and the test [count <= 2] succeeds. *)
Theorem C10_negative_count_label (z : Z) :
  z < 0 -> getIntensityLabel (inject_Z z) = "Low activity"%string.
Proof.
  intros Hz. unfold getIntensityLabel, steps.
  assert (E0 : Qeq_bool (inject_Z z) 0 = false).
  { destruct (Qeq_bool (inject_Z z) 0) eqn:E; [| reflexivity].
    apply Qeq_bool_eq in E. unfold Qeq in E. simpl in E. lia. }
  assert (E2 : Qle_bool (inject_Z z) 2 = true).
  { apply Qle_bool_iff. unfold Qle. simpl. lia. }
  rewrite E0, E2. reflexivity.
Qed.

Lemma C10_negative_count_label_witness :
  -3 < 0 /\ getIntensityLabel (inject_Z (-3)) = "Low activity"%string.
Proof.
  split; [lia | apply (C10_negative_count_label (-3)); lia].
Defined.
End ColorFacts.

(* ===================================================================== *)
(** * Loops *)
(* ===================================================================== *)

Section LoopFacts.
Local Open Scope Z_scope.

Lemma zrange_S (i : Z) (n : nat) : zrange i (S n) = i :: zrange (i + 1) n.
Proof.
  unfold zrange. cbn [seq List.map]. f_equal; [lia |].
  rewrite <- seq_shift, List.map_map.
  apply List.map_ext. intros k. lia.
Qed.

Lemma length_zrange (i : Z) (n : nat) : length (zrange i n) = n.
Proof. unfold zrange. rewrite List.length_map, length_seq. reflexivity. Qed.

Lemma in_zrange (i k : Z) (n : nat) :
  In k (zrange i n) <-> i <= k < i + Z.of_nat n.
Proof.
  unfold zrange. rewrite in_map_iff. split.
  - intros (j & <- & Hj). apply in_seq in Hj. lia.
  - intros Hk. exists (Z.to_nat (k - i)). split; [lia |].
    apply in_seq. lia.
Qed.

Lemma NoDup_zrange (i : Z) (n : nat) : NoDup (zrange i n).
Proof.
  unfold zrange. apply NoDup_fmap_2; [| apply NoDup_seq].
  intros a b Hab. lia.
Qed.

Lemma lookup_zrange (i : Z) (n k : nat) :
  (k < n)%nat -> zrange i n !! k = Some (i + Z.of_nat k).
Proof.
  intros Hk. unfold zrange.
  change (List.map ?f ?l) with (f <$> l).
  rewrite list_lookup_fmap.
  assert (E : seq 0 n !! k = Some k) by (apply lookup_seq; lia).
  rewrite E. reflexivity.
Qed.

(** Two loops with pointwise equal bodies compute the same state. *)
Lemma for_from_ext {St : Type} (body1 body2 : Z -> St -> St) :
  (forall k s, body1 k s = body2 k s) ->
  forall n i s, JS.for_from n i body1 s = JS.for_from n i body2 s.
Proof.
  intros Hext n. induction n as [| n IH]; intros i s; cbn [JS.for_from].
  - reflexivity.
  - rewrite Hext. apply IH.
Qed.

(** A loop whose body only pushes appends, in order, what each iteration
    pushes. *)
Lemma for_from_push {A : Type} (f : Z -> list A) :
  forall n i acc,
    JS.for_from n i (fun k acc => acc ++ f k) acc
    = acc ++ flat_map f (zrange i n).
Proof.
  intros n. induction n as [| n IH]; intros i acc; cbn [JS.for_from].
  - cbn. rewrite app_nil_r. reflexivity.
  - rewrite IH, zrange_S. cbn [flat_map]. rewrite <- app_assoc. reflexivity.
Qed.

Lemma flat_map_single {A B : Type} (g : A -> B) (l : list A) :
  flat_map (fun x => [g x]) l = List.map g l.
Proof.
  induction l as [| x l IH]; cbn; [reflexivity | f_equal; exact IH].
Qed.

(** A loop that does not run leaves the state as it was. *)
Lemma for_lt_nonpos {St : Type} (bound : Z) (body : Z -> St -> St) (s : St) :
  bound <= 0 -> JS.for_lt bound body s = s.
Proof.
  intros Hb. unfold JS.for_lt.
  replace (Z.to_nat bound) with 0%nat by lia. reflexivity.
Qed.

(** A loop writing [f i] at index [i] of an array: afterwards the indices
    the loop ran over hold the written values, the others are as before,
    and nothing is written past the end. *)
Lemma for_from_fill {A : Type} (f : Z -> A) :
  forall (n i : nat) (data : list A) (j : nat),
    JS.for_from n (Z.of_nat i) (fun k d => <[Z.to_nat k := f k]> d) data !! j
    = if decide (i <= j < i + n /\ j < length data)%nat
      then Some (f (Z.of_nat j)) else data !! j.
Proof.
  intros n. induction n as [| n IH]; intros i data j; cbn [JS.for_from].
  - destruct (decide _) as [H | H]; [lia | reflexivity].
  - replace (Z.of_nat i + 1) with (Z.of_nat (S i)) by lia.
    rewrite IH, length_insert, Nat2Z.id.
    destruct (decide (S i <= j < S i + n /\ j < length data)%nat) as [H | H].
    + destruct (decide _) as [_ | H']; [reflexivity | lia].
    + rewrite list_lookup_insert.
      destruct (decide (i = j /\ i < length data)%nat) as [[-> Hl] | H1].
      * destruct (decide _) as [_ | H']; [reflexivity | lia].
      * destruct (decide _) as [H' | _]; [lia | reflexivity].
Qed.

Lemma length_for_from_fill {A : Type} (f : Z -> A) :
  forall (n : nat) (i : Z) (data : list A),
    length (JS.for_from n i (fun k d => <[Z.to_nat k := f k]> d) data)
    = length data.
Proof.
  intros n. induction n as [| n IH]; intros i data; cbn [JS.for_from].
  - reflexivity.
  - rewrite IH. apply length_insert.
Qed.

(** The list of cells laid out block by block: block [a] holds the
    cells of the outer index [c0 + a], in the order of the inner index. *)
Lemma lookup_blocks {A : Type} (g : Z -> Z -> A) (m : nat) :
  forall (n : nat) (c0 : Z) (a b : nat),
    (a < n)%nat -> (b < m)%nat ->
    flat_map (fun c => List.map (g c) (zrange 0 m)) (zrange c0 n)
      !! (a * m + b)%nat
    = Some (g (c0 + Z.of_nat a) (Z.of_nat b)).
Proof.
  intros n. induction n as [| n IH]; intros c0 a b Ha Hb; [lia |].
  rewrite zrange_S. cbn [flat_map].
  destruct a as [| a].
  - rewrite lookup_app_l by (rewrite List.length_map, length_zrange; lia).
    change (List.map ?f ?l) with (f <$> l).
    rewrite list_lookup_fmap, lookup_zrange by lia.
    cbn. do 2 f_equal; lia.
  - rewrite lookup_app_r by (rewrite List.length_map, length_zrange; lia).
    rewrite List.length_map, length_zrange.
    replace (S a * m + b - m)%nat with (a * m + b)%nat by lia.
    rewrite IH by lia. do 2 f_equal. lia.
Qed.

Lemma NoDup_pairs (l1 l2 : list Z) :
  NoDup l1 -> NoDup l2 ->
  NoDup (flat_map (fun c => List.map (fun r => (c, r)) l2) l1).
Proof.
  intros H1 H2. induction H1 as [| c l1 Hc H1 IH]; cbn [flat_map].
  - constructor.
  - apply NoDup_app. split; [| split].
    + apply NoDup_fmap_2; [| exact H2]. intros r r' E. congruence.
    + intros [c' r'] Hin Hin'.
      apply list_elem_of_In, in_map_iff in Hin. destruct Hin as (r & E & _).
      apply list_elem_of_In, in_flat_map in Hin'.
      destruct Hin' as (c'' & Hc'' & Hin').
      apply in_map_iff in Hin'. destruct Hin' as (r'' & E' & _).
      apply Hc. apply list_elem_of_In. congruence.
    + exact IH.
Qed.
End LoopFacts.

(* ===================================================================== *)
(** * Frame generators: coverage, order, empty grids *)
(* ===================================================================== *)

Section FrameFacts.
Local Open Scope Z_scope.

(** The frame of the grid renderers, cell by cell: column after column,
    each column from row 0 upwards. *)
Lemma generatePattern_cells (columns rows : Z) (p : PatternType) (time : R) :
  Grid2D.generatePattern columns rows p time
  = flat_map
      (fun c => List.map
         (fun r => mkCell c r (PatternEngine.countAt columns rows p time c r))
         (zrange 0 (Z.to_nat rows)))
      (zrange 0 (Z.to_nat columns)).
Proof.
  unfold Grid2D.generatePattern, JS.for_lt.
  rewrite (for_from_ext _
    (fun c acc => acc ++ List.map
       (fun r => mkCell c r (PatternEngine.countAt columns rows p time c r))
       (zrange 0 (Z.to_nat rows)))).
  - rewrite for_from_push. reflexivity.
  - intros c acc.
    rewrite (for_from_push (fun r =>
      [mkCell c r (PatternEngine.countAt columns rows p time c r)])).
    rewrite flat_map_single. reflexivity.
Qed.

Lemma generatePattern_coords (columns rows : Z) (p : PatternType) (time : R) :
  List.map coords (Grid2D.generatePattern columns rows p time)
  = flat_map (fun c => List.map (fun r => (c, r)) (zrange 0 (Z.to_nat rows)))
      (zrange 0 (Z.to_nat columns)).
Proof.
  rewrite generatePattern_cells.
  generalize (zrange 0 (Z.to_nat columns)). intros l.
  induction l as [| c l IH]; cbn [flat_map List.map]; [reflexivity |].
  rewrite List.map_app, IH, List.map_map. reflexivity.
Qed.

(** The float array after a call of the hybrid generator, index by
    index. *)
Lemma generatePattern_hybrid_lookup (columns rows : Z) (p : PatternType)
    (time : R) (data : list JS.number) (j : nat) :
  PatternGenerator.generatePattern columns rows p time data !! j
  = if decide (j < Z.to_nat (columns * rows) /\ j < length data)%nat
    then Some (PatternEngine.valueAt columns rows p time
                 (Z.rem (Z.of_nat j) columns) (Z.of_nat j / columns))
    else data !! j.
Proof.
  unfold PatternGenerator.generatePattern, JS.for_lt.
  etransitivity.
  - exact (for_from_fill (fun i =>
      PatternEngine.valueAt columns rows p time (Z.rem i columns) (i / columns))
      (Z.to_nat (columns * rows)) 0%nat data j).
  - destruct (decide _) as [H | H]; destruct (decide _) as [H' | H'];
      try reflexivity; lia.
Qed.

(** C8.  On a grid of positive size the grid renderers emit exactly
    columns * rows cells, the coordinates of the cells are pairwise
    distinct and are exactly the pairs of [0,columns) x [0,rows), and the
    cell (col,row) is at index col * rows + row (column-major).  The
    hybrid generator writes the intensity of the cell (col,row) at index
    row * columns + col (row-major) of its columns * rows array. *)
Theorem C8_frame_coverage (columns rows : Z) (p : PatternType) (time : R) :
  0 < columns -> 0 < rows ->
  (let frame := Grid2D.generatePattern columns rows p time in
   length frame = Z.to_nat (columns * rows) /\
   NoDup (List.map coords frame) /\
   (forall c r, In (c, r) (List.map coords frame)
                <-> 0 <= c < columns /\ 0 <= r < rows) /\
   (forall c r, 0 <= c < columns -> 0 <= r < rows ->
      frame !! Z.to_nat (c * rows + r)
      = Some (mkCell c r (PatternEngine.countAt columns rows p time c r)))) /\
  (forall data : list JS.number,
     length data = Z.to_nat (columns * rows) ->
     let data' := PatternGenerator.generatePattern columns rows p time data in
     length data' = Z.to_nat (columns * rows) /\
     (forall i, 0 <= i < columns * rows ->
        0 <= Z.rem i columns < columns /\ 0 <= i / columns < rows /\
        i = (i / columns) * columns + Z.rem i columns) /\
     (forall c r, 0 <= c < columns -> 0 <= r < rows ->
        data' !! Z.to_nat (r * columns + c)
        = Some (PatternEngine.valueAt columns rows p time c r))).
Proof.
  intros Hc Hr. split.
  - cbn zeta. split; [| split; [| split]].
    + rewrite generatePattern_cells.
      rewrite (flat_map_constant_length (c := Z.to_nat rows)).
      * rewrite length_zrange. lia.
      * intros c _. rewrite List.length_map, length_zrange. reflexivity.
    + rewrite generatePattern_coords.
      apply NoDup_pairs; apply NoDup_zrange.
    + intros c r. rewrite generatePattern_coords. split.
      * intros Hin.
        apply in_flat_map in Hin. destruct Hin as (c' & Hc' & Hin).
        apply in_map_iff in Hin. destruct Hin as (r' & E & Hr').
        apply in_zrange in Hc'. apply in_zrange in Hr'.
        inversion E; subst. lia.
      * intros [Hc' Hr'].
        apply in_flat_map. exists c. split; [apply in_zrange; lia |].
        apply in_map_iff. exists r.
        split; [reflexivity | apply in_zrange; lia].
    + intros c r Hc' Hr'. rewrite generatePattern_cells.
      replace (Z.to_nat (c * rows + r))
        with (Z.to_nat c * Z.to_nat rows + Z.to_nat r)%nat by nia.
      rewrite (lookup_blocks
        (fun c r => mkCell c r (PatternEngine.countAt columns rows p time c r)))
        by lia.
      cbv beta. rewrite !Z2Nat.id by lia. rewrite Z.add_0_l. reflexivity.
  - intros data Hlen. cbn zeta. split; [| split].
    + unfold PatternGenerator.generatePattern, JS.for_lt.
      rewrite length_for_from_fill. exact Hlen.
    + intros i Hi.
      pose proof (Z.rem_mod_nonneg i columns ltac:(lia) ltac:(lia)) as Hrm.
      pose proof (Z.mod_pos_bound i columns Hc) as Hmod.
      pose proof (Z.div_mod i columns ltac:(lia)) as Hdm.
      assert (Hq : 0 <= i / columns) by (apply Z.div_pos; lia).
      assert (Hq' : i / columns < rows)
        by (apply Z.div_lt_upper_bound; lia).
      rewrite Hrm. lia.
    + intros c r Hc' Hr'. rewrite generatePattern_hybrid_lookup.
      rewrite Z2Nat.id by nia.
      assert (Hrem : Z.rem (r * columns + c) columns = c).
      { rewrite Z.rem_mod_nonneg by nia.
        rewrite Z.add_comm, Z.mod_add by lia. apply Z.mod_small. lia. }
      assert (Hdiv : (r * columns + c) / columns = r).
      { rewrite Z.add_comm, Z.div_add by lia.
        rewrite Z.div_small by lia. lia. }
      rewrite Hrem, Hdiv.
      destruct (decide _) as [_ | H]; [reflexivity |].
      exfalso. apply H. rewrite Hlen. nia.
Qed.

(** The frame of the 5 x 3 grid has exactly 15 cells. *)
Lemma C8_frame_coverage_witness :
  0 < 5 /\ 0 < 3 /\
  length (Grid2D.generatePattern 5 3 waves 0%R) = 15%nat /\
  NoDup (List.map coords (Grid2D.generatePattern 5 3 waves 0%R)) /\
  length (replicate 15 (@None R)) = Z.to_nat (5 * 3) /\
  PatternGenerator.generatePattern 5 3 waves 0%R (replicate 15 None) !! 14%nat
  = Some (PatternEngine.valueAt 5 3 waves 0%R 4 2).
Proof.
  split; [lia |]. split; [lia |].
  destruct (C8_frame_coverage 5 3 waves 0%R) as [(Hlen & Hnd & _) Hhyb];
    [lia | lia |].
  split; [exact Hlen |]. split; [exact Hnd |]. split; [reflexivity |].
  destruct (Hhyb (replicate 15 None)) as (_ & _ & Hidx); [reflexivity |].
  apply (Hidx 4 2); lia.
Defined.

(** C5.  With columns <= 0 or rows <= 0 the nested loops of the grid
    renderers run no iteration of the inner body: the frame is the empty
    array, so no count is computed (the Gradient division is not
    evaluated), nothing fails, and no cell carries a count other
    than 0. *)
Theorem C5_empty_grid (columns rows : Z) (p : PatternType) (time : R) :
  columns <= 0 \/ rows <= 0 ->
  Grid2D.generatePattern columns rows p time = [] /\
  (forall cell, In cell (Grid2D.generatePattern columns rows p time) ->
     count cell = Some 0).
Proof.
  intros Hsz.
  assert (E : Grid2D.generatePattern columns rows p time = []).
  { rewrite generatePattern_cells. destruct Hsz as [Hc | Hr].
    - replace (Z.to_nat columns) with 0%nat by lia. reflexivity.
    - replace (Z.to_nat rows) with 0%nat by lia.
      generalize (zrange 0 (Z.to_nat columns)). intros l.
      induction l as [| c l IH]; [reflexivity | exact IH]. }
  split; [exact E |]. rewrite E. intros cell [].
Qed.

Lemma C5_empty_grid_witness :
  (0 <= 0 \/ 20 <= 0) /\ Grid2D.generatePattern 0 20 gradient 0%R = [].
Proof.
  split; [left; lia |].
  apply (C5_empty_grid 0 20 gradient 0%R). left. lia.
Defined.

(** The guard is the loop bound, not the formula: evaluated on its own
    with [columns = 0], the Gradient count is [NaN]. *)
Lemma gradient_zero_columns (rows : Z) (time : R) (c r : Z) :
  PatternEngine.countAt 0 rows gradient time c r = None /\
  PatternEngine.valueAt 0 rows gradient time c r = None.
Proof.
  unfold PatternEngine.countAt, PatternEngine.valueAt, JS.rem.
  destruct (Req_dec_T (IZR 0) 0) as [_ | H]; [split; reflexivity |].
  exfalso. apply H. reflexivity.
Qed.

(** The index loops of the hybrid generator run over [columns * rows]:
    with a zero or a single negative dimension they write nothing. *)
Lemma generatePattern_hybrid_empty (columns rows : Z) (p : PatternType)
    (time : R) (data : list JS.number) :
  columns * rows <= 0 ->
  PatternGenerator.generatePattern columns rows p time data = data.
Proof.
  intros Hsz. unfold PatternGenerator.generatePattern.
  apply for_lt_nonpos. exact Hsz.
Qed.
End FrameFacts.

(* ===================================================================== *)
(** * Frames in the store: allocation, reuse, independence of the store *)
(* ===================================================================== *)

Section StoreFacts.
Import Store.

Lemma alloc_fresh (h : heap) (o : obj) : fresh_frame h (alloc h o).
Proof.
  unfold fresh_frame, alloc. cbn [fst snd].
  assert (Hf : h !! fresh (dom h) = None).
  { apply not_elem_of_dom. apply is_fresh. }
  split; [exact Hf |].
  intros l o' Hl. rewrite lookup_insert_ne; [exact Hl |].
  intros E. rewrite <- E, Hf in Hl. discriminate.
Qed.

Lemma alloc_lookup (h : heap) (o : obj) : (alloc h o).1 !! (alloc h o).2 = Some o.
Proof. unfold alloc. cbn [fst snd]. apply lookup_insert_eq. Qed.

Lemma push_insert (a : loc) (cell : Cell) (cells : list Cell) (h : heap) :
  push a cell (<[a := CellArray cells]> h) = <[a := CellArray (cells ++ [cell])]> h.
Proof. unfold push. rewrite lookup_insert_eq, insert_insert_eq. reflexivity. Qed.

Lemma write_insert (a : loc) (i : Z) (v : JS.number) (data : list JS.number)
    (h : heap) :
  write a i v (<[a := Float32Array data]> h)
  = <[a := Float32Array (<[Z.to_nat i := v]> data)]> h.
Proof. unfold write. rewrite lookup_insert_eq, insert_insert_eq. reflexivity. Qed.

(** A loop whose body updates the one object named by [a] acts on the
    store as the loop on the contents of that object. *)
Lemma for_from_store {St : Type} (inj : St -> obj) (a : loc)
    (bs : Z -> St -> St) (bh : Z -> heap -> heap) :
  (forall k s h, bh k (<[a := inj s]> h) = <[a := inj (bs k s)]> h) ->
  forall n i s h,
    JS.for_from n i bh (<[a := inj s]> h) = <[a := inj (JS.for_from n i bs s)]> h.
Proof.
  intros Hstep n. induction n as [| n IH]; intros i s h; cbn [JS.for_from].
  - reflexivity.
  - rewrite Hstep. apply IH.
Qed.

(** The call of the grid renderers on the store: the finished array sits
    at a new reference. *)
Lemma generatePattern_heap_alloc (columns rows : Z) (h : heap)
    (p : PatternType) (time : R) :
  Grid2D.generatePattern_heap columns rows h p time
  = alloc h (CellArray (Grid2D.generatePattern columns rows p time)).
Proof.
  unfold Grid2D.generatePattern_heap, Grid2D.generatePattern, alloc, JS.for_lt.
  f_equal.
  apply (for_from_store CellArray (fresh (dom h))
    (fun col newData =>
       JS.for_from (Z.to_nat rows) 0 (fun row newData =>
         newData ++ [mkCell col row
                       (PatternEngine.countAt columns rows p time col row)])
       newData)).
  intros col cells h'.
  apply (for_from_store CellArray (fresh (dom h))
    (fun row newData =>
       newData ++ [mkCell col row
                     (PatternEngine.countAt columns rows p time col row)])).
  intros row cells' h''. apply push_insert.
Qed.

(** The call of the hybrid generator on the store: the array named by
    [dataRef] is overwritten where it is. *)
Lemma generatePattern_heap_overwrite (columns rows : Z) (dataRef : loc)
    (h : heap) (p : PatternType) (time : R) (data : list JS.number) :
  h !! dataRef = Some (Float32Array data) ->
  PatternGenerator.generatePattern_heap columns rows dataRef h p time
  = (<[dataRef := Float32Array
         (PatternGenerator.generatePattern columns rows p time data)]> h,
     dataRef).
Proof.
  intros Hd.
  unfold PatternGenerator.generatePattern_heap, PatternGenerator.generatePattern,
    JS.for_lt.
  cbn zeta. f_equal.
  rewrite <- (insert_id h dataRef (Float32Array data) Hd) at 1.
  apply (for_from_store Float32Array dataRef
    (fun i data =>
       <[Z.to_nat i := PatternEngine.valueAt columns rows p time
                         (Z.rem i columns) (i / columns)]> data)).
  intros i d h'. apply write_insert.
Qed.

(** Every write of the hybrid generator goes through [dataRef]. *)
Lemma generatePattern_heap_frame (columns rows : Z) (dataRef : loc)
    (h : heap) (p : PatternType) (time : R) (l : loc) :
  l <> dataRef ->
  (PatternGenerator.generatePattern_heap columns rows dataRef h p time).1 !! l
  = h !! l.
Proof.
  intros Hl. unfold PatternGenerator.generatePattern_heap, JS.for_lt.
  cbn [fst]. generalize 0%Z. generalize (Z.to_nat (columns * rows)).
  intros n. revert h. induction n as [| n IH]; intros h i; cbn [JS.for_from].
  - reflexivity.
  - rewrite IH. unfold write.
    destruct (h !! dataRef) as [[cells | data] |]; try reflexivity.
    apply lookup_insert_ne. congruence.
Qed.

(** The hybrid generator on a one-cell grid. *)
Lemma generatePattern_hybrid_single (p : PatternType) (time : R)
    (v : JS.number) :
  PatternGenerator.generatePattern 1 1 p time [v]
  = [PatternEngine.valueAt 1 1 p time 0 0].
Proof. reflexivity. Qed.

Lemma checkerboard_at_0 :
  PatternEngine.valueAt 1 1 checkerboard 0 0 0 = Some 1%R.
Proof.
  unfold PatternEngine.valueAt. rewrite isEven_parity.
  rewrite (floor_unique (0 / 5) 0) by lra. reflexivity.
Qed.

Lemma checkerboard_at_5 :
  PatternEngine.valueAt 1 1 checkerboard 5 0 0 = Some 0%R.
Proof.
  unfold PatternEngine.valueAt. rewrite isEven_parity.
  rewrite (floor_unique (5 / 5) 1) by lra. reflexivity.
Qed.

(** C4, as stated, fails for the hybrid generator.  On a one-cell grid
    whose buffer is the object 1 of the store, the frame delivered at
    time 0 reads [1]; the call at time 5 returns the same reference, which
    names an object that already existed, and the frame delivered first
    now reads [0]. *)
Lemma C4_hybrid_frame_overwritten :
  (PatternGenerator.generatePattern_heap 1 1 1%positive
     (PatternGenerator.generatePattern_heap 1 1 1%positive
        (one_cell_store 0) checkerboard 0).1 checkerboard 5).2
  = (PatternGenerator.generatePattern_heap 1 1 1%positive
       (one_cell_store 0) checkerboard 0).2 /\
  (PatternGenerator.generatePattern_heap 1 1 1%positive
     (one_cell_store 0) checkerboard 0).1 !! 1%positive
  = Some (Float32Array [Some 1%R]) /\
  (PatternGenerator.generatePattern_heap 1 1 1%positive
     (PatternGenerator.generatePattern_heap 1 1 1%positive
        (one_cell_store 0) checkerboard 0).1 checkerboard 5).1 !! 1%positive
  = Some (Float32Array [Some 0%R]) /\
  ~ fresh_frame
      (PatternGenerator.generatePattern_heap 1 1 1%positive
         (one_cell_store 0) checkerboard 0).1
      (PatternGenerator.generatePattern_heap 1 1 1%positive
         (PatternGenerator.generatePattern_heap 1 1 1%positive
            (one_cell_store 0) checkerboard 0).1 checkerboard 5).
Proof.
  assert (E1 : PatternGenerator.generatePattern_heap 1 1 1%positive
                 (one_cell_store 0) checkerboard 0
               = (<[1%positive := Float32Array [Some 1%R]]> (one_cell_store 0),
                  1%positive)).
  { rewrite (generatePattern_heap_overwrite 1 1 1%positive _ _ _ [Some 0%R])
      by apply lookup_singleton_eq.
    rewrite generatePattern_hybrid_single, checkerboard_at_0. reflexivity. }
  rewrite E1. cbn [fst snd].
  assert (E2 : PatternGenerator.generatePattern_heap 1 1 1%positive
                 (<[1%positive := Float32Array [Some 1%R]]> (one_cell_store 0))
                 checkerboard 5
               = (<[1%positive := Float32Array [Some 0%R]]>
                    (<[1%positive := Float32Array [Some 1%R]]> (one_cell_store 0)),
                  1%positive)).
  { rewrite (generatePattern_heap_overwrite 1 1 1%positive _ _ _ [Some 1%R])
      by apply lookup_insert_eq.
    rewrite generatePattern_hybrid_single, checkerboard_at_5. reflexivity. }
  rewrite E2. cbn [fst snd].
  split; [reflexivity |].
  split; [apply lookup_insert_eq |].
  split; [apply lookup_insert_eq |].
  intros [Hfresh _]. cbn [snd] in Hfresh.
  rewrite lookup_insert_eq in Hfresh. discriminate.
Qed.

(** C4, amended.  A call of [generatePattern] of the grid renderers
    returns a reference that named no object before the call, leaves every
    object of the store (every frame returned earlier) as it was, and the
    new array holds the frame.  The hybrid generator returns the reference
    held in [dataRef] on every call and changes no other object. *)
Theorem C4_grid_frames_fresh (columns rows : Z) (dataRef : loc) (h : heap)
    (p : PatternType) (time : R) :
  (let res := Grid2D.generatePattern_heap columns rows h p time in
   fresh_frame h res /\
   res.1 !! res.2 = Some (CellArray (Grid2D.generatePattern columns rows p time))) /\
  (let res := PatternGenerator.generatePattern_heap columns rows dataRef h p time in
   res.2 = dataRef /\
   forall l, l <> dataRef -> res.1 !! l = h !! l).
Proof.
  split; intros res; subst res.
  - rewrite generatePattern_heap_alloc.
    split; [apply alloc_fresh | apply alloc_lookup].
  - split; [reflexivity |].
    intros l Hl. apply generatePattern_heap_frame. exact Hl.
Qed.

(** C9.  The frame computed by a call depends on the grid size, the
    pattern and the time only.  For the grid renderers, two calls with the
    same arguments from any two stores return arrays with the same cells,
    each cell carrying the count of the pattern engine at its coordinates.
    For the hybrid generator, whatever the buffer of columns * rows numbers
    held before the call, it holds the same intensities after it. *)
Theorem C9_frames_depend_on_arguments_only (columns rows : Z)
    (p : PatternType) (time : R) :
  (forall h1 h2 : heap,
     let r1 := Grid2D.generatePattern_heap columns rows h1 p time in
     let r2 := Grid2D.generatePattern_heap columns rows h2 p time in
     r1.1 !! r1.2 = r2.1 !! r2.2 /\
     r1.1 !! r1.2 = Some (CellArray (Grid2D.generatePattern columns rows p time))) /\
  (forall cell,
     In cell (Grid2D.generatePattern columns rows p time) ->
     count cell = PatternEngine.countAt columns rows p time (col cell) (row cell)) /\
  (forall (dataRef : loc) (h1 h2 : heap) (d1 d2 : list JS.number),
     h1 !! dataRef = Some (Float32Array d1) ->
     h2 !! dataRef = Some (Float32Array d2) ->
     length d1 = Z.to_nat (columns * rows) ->
     length d2 = Z.to_nat (columns * rows) ->
     let r1 := PatternGenerator.generatePattern_heap columns rows dataRef h1 p time in
     let r2 := PatternGenerator.generatePattern_heap columns rows dataRef h2 p time in
     r1.1 !! r1.2 = r2.1 !! r2.2).
Proof.
  split; [| split].
  - intros h1 h2 r1 r2. subst r1 r2. rewrite !generatePattern_heap_alloc.
    rewrite !alloc_lookup. split; reflexivity.
  - intros cell Hin. rewrite generatePattern_cells in Hin.
    apply in_flat_map in Hin. destruct Hin as (c & _ & Hin).
    apply in_map_iff in Hin. destruct Hin as (r & <- & _). reflexivity.
  - intros dataRef h1 h2 d1 d2 H1 H2 L1 L2 r1 r2. subst r1 r2.
    rewrite (generatePattern_heap_overwrite _ _ _ _ _ _ d1 H1).
    rewrite (generatePattern_heap_overwrite _ _ _ _ _ _ d2 H2).
    cbn [fst snd]. rewrite !lookup_insert_eq. do 2 f_equal.
    apply list_eq. intros j. rewrite !generatePattern_hybrid_lookup.
    rewrite L1, L2.
    destruct (decide _) as [_ | H]; [reflexivity |].
    rewrite (proj2 (lookup_ge_None d1 j)) by lia.
    rewrite (proj2 (lookup_ge_None d2 j)) by lia. reflexivity.
Qed.

Lemma C9_frames_depend_on_arguments_only_witness :
  one_cell_store 0 !! 1%positive = Some (Float32Array [Some 0%R]) /\
  one_cell_store 1 !! 1%positive = Some (Float32Array [Some 1%R]) /\
  (PatternGenerator.generatePattern_heap 1 1 1%positive
     (one_cell_store 0) checkerboard 0).1 !! 1%positive
  = (PatternGenerator.generatePattern_heap 1 1 1%positive
       (one_cell_store 1) checkerboard 0).1 !! 1%positive.
Proof.
  split; [apply lookup_singleton_eq |].
  split; [apply lookup_singleton_eq |].
  apply (proj2 (proj2 (C9_frames_depend_on_arguments_only 1 1 checkerboard 0))
           1%positive (one_cell_store 0) (one_cell_store 1)
           [Some 0%R] [Some 1%R]).
  - apply lookup_singleton_eq.
  - apply lookup_singleton_eq.
  - reflexivity.
  - reflexivity.
Defined.
End StoreFacts.

(* ===================================================================== *)
(** * Fragment shader against the CPU formulas *)
(* ===================================================================== *)

Section ShaderFacts.
Local Open Scope R_scope.
Import PatternEngine.

(** The scaled position of the texture coordinate of a cell is the
    cell. *)
Lemma cellUv_scaled (columns rows col row : Z) :
  (0 < columns)%Z -> (0 < rows)%Z ->
  IZR col / IZR columns * IZR columns = IZR col /\
  IZR row / IZR rows * IZR rows = IZR row.
Proof.
  intros Hc Hr. apply IZR_lt in Hc. apply IZR_lt in Hr.
  split; field; lra.
Qed.

(** C2, as stated, fails.  On the 52 x 20 grid, at the cell (0,0) and
    with the same time argument 1, the CPU Gradient intensity is
    (0 + 0 + 1) % 52 / 52 = 1/52 while the shader computes
    mod(0 + 0 + 1 * 5.0, 52) / 52 = 5/52. *)
Lemma C2_gradient_cpu_gpu_differ :
  valueAt 52 20 gradient 1 0 0 = Some (1 / 52) /\
  Shader.getPatternValue (IZR 52, IZR 20) (Shader.cellUv (IZR 52, IZR 20) 0 0)
    (Shader.patternIndex gradient) 1 = Some (5 / 52) /\
  valueAt 52 20 gradient 1 0 0
  <> Shader.getPatternValue (IZR 52, IZR 20)
       (Shader.cellUv (IZR 52, IZR 20) 0 0) (Shader.patternIndex gradient) 1.
Proof.
  assert (Ecpu : valueAt 52 20 gradient 1 0 0 = Some (1 / 52)).
  { unfold valueAt.
    replace (IZR 0 + IZR 0 + 1) with 1 by lra.
    rewrite (rem_small 1 (IZR 52)) by lra.
    cbn [JS.bind]. unfold JS.div.
    destruct (Req_dec_T (IZR 52) 0) as [E | _]; [lra | reflexivity]. }
  assert (Egpu : Shader.getPatternValue (IZR 52, IZR 20)
                   (Shader.cellUv (IZR 52, IZR 20) 0 0)
                   (Shader.patternIndex gradient) 1 = Some (5 / 52)).
  { unfold Shader.getPatternValue, Shader.cellUv, Shader.patternIndex.
    cbn [Z.eqb fst snd].
    replace (IZR 0 / IZR 52 * IZR 52 + IZR 0 / IZR 20 * IZR 20 + 1 * 5.0)
      with 5 by lra.
    rewrite <- (rem_mod_nonneg 5 (IZR 52)) by lra.
    rewrite (rem_small 5 (IZR 52)) by lra.
    reflexivity. }
  split; [exact Ecpu |]. split; [exact Egpu |].
  rewrite Ecpu, Egpu. intros E. inversion E as [E']. lra.
Qed.

(** C2, amended.  On a grid of positive size, at the texture coordinate
    of the cell (col,row), the shader computes the CPU intensity of Waves,
    Ripples and Gradient once its time argument is rescaled: 0.1 * t for
    Waves, 0.2 * t for Ripples and t / 5 for Gradient, the latter where
    col + row + t is not negative (there GLSL [mod] and [%] agree). *)
Theorem C2_shader_matches_cpu_up_to_time_scale (columns rows col row : Z)
    (t : R) :
  (0 < columns)%Z -> (0 < rows)%Z ->
  let resolution := (IZR columns, IZR rows) in
  let uv := Shader.cellUv resolution col row in
  Shader.getPatternValue resolution uv (Shader.patternIndex waves) (0.1 * t)
  = valueAt columns rows waves t col row /\
  Shader.getPatternValue resolution uv (Shader.patternIndex ripples) (0.2 * t)
  = valueAt columns rows ripples t col row /\
  (0 <= IZR col + IZR row + t ->
   Shader.getPatternValue resolution uv (Shader.patternIndex gradient) (t / 5)
   = valueAt columns rows gradient t col row).
Proof.
  intros Hc Hr resolution uv.
  destruct (cellUv_scaled columns rows col row Hc Hr) as [Ex Ey].
  assert (Hc' : 0 < IZR columns) by (apply IZR_lt in Hc; exact Hc).
  unfold uv, resolution, Shader.getPatternValue, Shader.cellUv,
    Shader.patternIndex, valueAt, centerX, centerY.
  cbn [Z.eqb fst snd]. rewrite Ex, Ey.
  split; [| split].
  - f_equal.
    replace (IZR col * 0.2 + 0.1 * t) with (IZR col * 0.2 + t * 0.1) by lra.
    replace (IZR row * 0.2 + 0.1 * t) with (IZR row * 0.2 + t * 0.1) by lra.
    lra.
  - f_equal.
    replace (IZR columns * 0.5) with (IZR columns / 2) by lra.
    replace (IZR rows * 0.5) with (IZR rows / 2) by lra.
    unfold GLSL.length. cbn [fst snd].
    replace (0.2 * t) with (t * 0.2) by lra.
    lra.
  - intros Hnn.
    replace (IZR col + IZR row + t / 5 * 5.0) with (IZR col + IZR row + t)
      by lra.
    rewrite <- rem_mod_nonneg by lra.
    destruct (JS.rem (IZR col + IZR row + t) (IZR columns)) as [g |];
      cbn [JS.bind]; [| reflexivity].
    unfold JS.div.
    destruct (Req_dec_T (IZR columns) 0) as [E | _]; [lra | reflexivity].
Qed.

Lemma C2_shader_matches_cpu_up_to_time_scale_witness :
  (0 < 52)%Z /\ (0 < 20)%Z /\ 0 <= IZR 3 + IZR 4 + 1 /\
  Shader.getPatternValue (IZR 52, IZR 20) (Shader.cellUv (IZR 52, IZR 20) 3 4)
    (Shader.patternIndex waves) (0.1 * 1)
  = valueAt 52 20 waves 1 3 4 /\
  Shader.getPatternValue (IZR 52, IZR 20) (Shader.cellUv (IZR 52, IZR 20) 3 4)
    (Shader.patternIndex gradient) (1 / 5)
  = valueAt 52 20 gradient 1 3 4.
Proof.
  split; [lia |]. split; [lia |]. split; [lra |].
  destruct (C2_shader_matches_cpu_up_to_time_scale 52 20 3 4 1)
    as (Hw & _ & Hg); [lia | lia |].
  split; [exact Hw | apply Hg; lra].
Defined.
End ShaderFacts.

(* ===================================================================== *)
(** * Pattern cycling *)
(* ===================================================================== *)

Section CycleFacts.
Context {A : Type} `{EqDecision A}.
Local Open Scope Z_scope.

Lemma indexOf_from_lookup (l : list A) :
  NoDup l ->
  forall (i : nat) (x : A) (k : Z),
    l !! i = Some x -> Cycle.indexOf_from l x k = k + Z.of_nat i.
Proof.
  intros Hnd. induction Hnd as [| y l Hy Hnd IH]; intros i x k Hi.
  - discriminate.
  - cbn [Cycle.indexOf_from]. destruct i as [| i]; cbn in Hi.
    + injection Hi as ->. destruct (decide (x = x)) as [_ | Hne]; [lia | congruence].
    + destruct (decide (y = x)) as [-> | Hne].
      * exfalso. apply Hy. apply list_elem_of_lookup. exists i. exact Hi.
      * rewrite (IH i x (k + 1)) by exact Hi. lia.
Qed.

Lemma indexOf_from_absent (l : list A) (x : A) :
  x ∉ l -> forall k, Cycle.indexOf_from l x k = -1.
Proof.
  induction l as [| y l IH]; intros Hx k; cbn [Cycle.indexOf_from].
  - reflexivity.
  - destruct (decide (y = x)) as [-> | Hne].
    + exfalso. apply Hx. left.
    + apply IH. intros Hin. apply Hx. right. exact Hin.
Qed.

(** The timer's updater on an array without repetitions: the element at
    index [i] is followed by the element at index [(i + 1) mod length],
    so the last one wraps to the first; a value that is not in the array
    ([indexOf] gives -1) is followed by the first element. *)
Theorem cycle_next_wraps (l : list A) :
  NoDup l ->
  (forall (i : nat) (p : A),
     l !! i = Some p ->
     Cycle.next l p = l !! ((i + 1) mod length l)%nat) /\
  (forall p : A, p ∉ l -> Cycle.next l p = l !! 0%nat).
Proof.
  intros Hnd. split.
  - intros i p Hi. unfold Cycle.next, Cycle.indexOf.
    rewrite (indexOf_from_lookup l Hnd i p 0 Hi).
    assert (Hlen : (i < length l)%nat) by (apply lookup_lt_is_Some; eauto).
    replace (0 + Z.of_nat i + 1) with (Z.of_nat (i + 1)) by lia.
    rewrite Z.rem_mod_nonneg by lia.
    rewrite <- Nat2Z.inj_mod. unfold Cycle.index.
    destruct (Z.ltb_spec (Z.of_nat ((i + 1) mod length l)) 0) as [Hneg | _];
      [lia |].
    rewrite Nat2Z.id. reflexivity.
  - intros p Hp. unfold Cycle.next, Cycle.indexOf.
    rewrite (indexOf_from_absent l p Hp 0).
    replace (-1 + 1) with 0 by lia. reflexivity.
Qed.
End CycleFacts.

Section PatternCycle.

Lemma NoDup_patterns : NoDup patterns.
Proof.
  unfold patterns. repeat constructor; rewrite ?list_elem_of_In; cbn;
    intuition discriminate.
Qed.

Lemma cycle_next_wraps_witness :
  NoDup patterns /\ patterns !! 4%nat = Some spiral /\
  nextPattern spiral = Some waves.
Proof.
  split; [exact NoDup_patterns |]. split; [reflexivity |].
  exact (proj1 (cycle_next_wraps patterns NoDup_patterns) 4%nat spiral eq_refl).
Defined.

(** The auto-advance visits the five patterns in a single cycle: the next
    pattern is never the current one, any pattern is reached from any other
    within four ticks, and five ticks lead back to the start. *)
Theorem pattern_cycle_orbit (p : PatternType) :
  (exists q, nextPattern p = Some q /\ q <> p) /\
  afterTicks 5 p = Some p /\
  (forall q : PatternType, exists k : nat, (k <= 4)%nat /\ afterTicks k p = Some q).
Proof.
  split; [| split].
  - destruct p; eexists; (split; [reflexivity | discriminate]).
  - destruct p; reflexivity.
  - intros q.
    destruct p, q;
      first [ exists 0%nat; split; [lia | reflexivity]
            | exists 1%nat; split; [lia | reflexivity]
            | exists 2%nat; split; [lia | reflexivity]
            | exists 3%nat; split; [lia | reflexivity]
            | exists 4%nat; split; [lia | reflexivity] ].
Qed.
End PatternCycle.

(* ===================================================================== *)
(** * Pattern engine: symmetries and periods *)
(* ===================================================================== *)

Section PatternSymmetries.
Local Open Scope R_scope.
Import PatternEngine.

Lemma floor_succ (x : R) : JS.floor (x + 1) = (JS.floor x + 1)%Z.
Proof.
  apply floor_unique. destruct (floor_bounds x) as [Hlo Hhi].
  rewrite plus_IZR. lra.
Qed.

Lemma parity_succ (z : Z) :
  (Z.rem (z + 1) 2 =? 0)%Z = negb (Z.rem z 2 =? 0)%Z.
Proof.
  destruct (Z.eqb_spec (Z.rem (z + 1) 2) 0) as [E1 | E1];
    destruct (Z.eqb_spec (Z.rem z 2) 0) as [E2 | E2]; cbn; try reflexivity;
    exfalso; revert E1 E2; Z.quot_rem_to_equations; lia.
Qed.

(** Adding the divisor to a non-negative dividend leaves [%] unchanged. *)
Lemma rem_shift (a b : R) :
  0 <= a -> 0 < b -> JS.rem (a + b) b = JS.rem a b.
Proof.
  intros Ha Hb. unfold JS.rem.
  destruct (Req_dec_T b 0) as [E | _]; [lra |]. f_equal.
  assert (Hq : 0 <= a / b < a / b + 1).
  { apply div_bounds; try lra.
    assert (Hq : a / b * b = a) by (field; lra). lra. }
  replace ((a + b) / b) with (a / b + 1) by (field; lra).
  rewrite !trunc_nonneg by lra.
  rewrite floor_succ, plus_IZR. lra.
Qed.

(** Checkerboard in space: the cell to the right and the cell below have
    the opposite parity, so their counts differ from the cell's own. *)
Theorem checkerboard_neighbours_alternate (columns rows : Z) (time : R)
    (col row : Z) :
  isEven time (col + 1) row = negb (isEven time col row) /\
  isEven time col (row + 1) = negb (isEven time col row) /\
  countAt columns rows checkerboard time (col + 1) row
    <> countAt columns rows checkerboard time col row /\
  countAt columns rows checkerboard time col (row + 1)
    <> countAt columns rows checkerboard time col row.
Proof.
  assert (E1 : isEven time (col + 1) row = negb (isEven time col row)).
  { rewrite !isEven_parity. rewrite <- parity_succ. do 2 f_equal. lia. }
  assert (E2 : isEven time col (row + 1) = negb (isEven time col row)).
  { rewrite !isEven_parity. rewrite <- parity_succ. do 2 f_equal. lia. }
  split; [exact E1 |]. split; [exact E2 |].
  unfold countAt. rewrite E1, E2.
  destruct (isEven time col row); cbn; split; discriminate.
Qed.

(** Checkerboard in time: 5 time units later every cell has flipped, and
    10 time units later the whole frame is as before. *)
Theorem checkerboard_flips_every_5 (columns rows : Z) (time : R) :
  (forall col row, isEven (time + 5) col row = negb (isEven time col row)) /\
  (forall col row, isEven (time + 10) col row = isEven time col row) /\
  Grid2D.generatePattern columns rows checkerboard (time + 10)
  = Grid2D.generatePattern columns rows checkerboard time.
Proof.
  assert (E5 : forall t col row, isEven (t + 5) col row = negb (isEven t col row)).
  { intros t col row. rewrite !isEven_parity.
    replace ((t + 5) / 5) with (t / 5 + 1) by lra.
    rewrite floor_succ, <- parity_succ. do 2 f_equal. lia. }
  assert (E10 : forall col row, isEven (time + 10) col row = isEven time col row).
  { intros col row. replace (time + 10) with (time + 5 + 5) by lra.
    rewrite !E5. apply negb_involutive. }
  split; [apply E5 |]. split; [exact E10 |].
  rewrite !generatePattern_cells.
  apply flat_map_ext. intros c. apply List.map_ext. intros r.
  unfold countAt. rewrite E10. reflexivity.
Qed.

(** Waves: the intensity of the cell (col,row) is that of the cell
    (row,col), and the pattern repeats after 20*PI time units. *)
Theorem waves_transpose_and_period (columns rows : Z) (time : R) (col row : Z) :
  valueAt columns rows waves time col row
  = valueAt columns rows waves time row col /\
  valueAt columns rows waves (time + 20 * PI) col row
  = valueAt columns rows waves time col row /\
  countAt columns rows waves (time + 20 * PI) col row
  = countAt columns rows waves time col row.
Proof.
  assert (Hsin : forall x, sin (x + (time + 20 * PI) * 0.1) = sin (x + time * 0.1)).
  { intros x. replace (x + (time + 20 * PI) * 0.1) with (x + time * 0.1 + 2 * PI)
      by lra.
    rewrite sin_plus, sin_2PI, cos_2PI. lra. }
  split; [| split].
  - unfold valueAt. f_equal. lra.
  - unfold valueAt. rewrite !Hsin. reflexivity.
  - unfold countAt. rewrite !Hsin. reflexivity.
Qed.

(** Ripples: the intensity depends on the distance to the centre only, so
    it is the same at the cell mirrored through the centre and at the cells
    mirrored in either axis; the pattern repeats after 10*PI time units. *)
Theorem ripples_mirror_and_period (columns rows : Z) (time : R) (col row : Z) :
  valueAt columns rows ripples time (columns - col) (rows - row)
  = valueAt columns rows ripples time col row /\
  valueAt columns rows ripples time (columns - col) row
  = valueAt columns rows ripples time col row /\
  valueAt columns rows ripples time col (rows - row)
  = valueAt columns rows ripples time col row /\
  valueAt columns rows ripples (time + 10 * PI) col row
  = valueAt columns rows ripples time col row.
Proof.
  unfold valueAt, centerX, centerY. rewrite !minus_IZR.
  set (dx := IZR col - IZR columns / 2).
  set (dy := IZR row - IZR rows / 2).
  replace (IZR columns - IZR col - IZR columns / 2) with (- dx) by (unfold dx; lra).
  replace (IZR rows - IZR row - IZR rows / 2) with (- dy) by (unfold dy; lra).
  replace (- dx * - dx) with (dx * dx) by lra.
  replace (- dy * - dy) with (dy * dy) by lra.
  repeat split; try reflexivity.
  do 3 f_equal.
  replace (sqrt (dx * dx + dy * dy) * 0.5 - (time + 10 * PI) * 0.2)
    with (sqrt (dx * dx + dy * dy) * 0.5 - time * 0.2 - 2 * PI) by lra.
  rewrite sin_minus, sin_2PI, cos_2PI. lra.
Qed.

(** Gradient: the intensity depends on col + row only (it is constant
    along anti-diagonals), and one time unit moves the pattern by one
    cell. *)
Theorem gradient_diagonal_and_sweep (columns rows : Z) (time : R) (col row : Z) :
  valueAt columns rows gradient time (col + 1) row
  = valueAt columns rows gradient time col (row + 1) /\
  valueAt columns rows gradient (time + 1) col row
  = valueAt columns rows gradient time (col + 1) row /\
  countAt columns rows gradient (time + 1) col row
  = countAt columns rows gradient time (col + 1) row.
Proof.
  unfold valueAt, countAt. rewrite !plus_IZR.
  replace (IZR col + 1 + IZR row + time) with (IZR col + IZR row + (time + 1))
    by lra.
  replace (IZR col + (IZR row + 1) + time) with (IZR col + IZR row + (time + 1))
    by lra.
  repeat split; reflexivity.
Qed.

(** Gradient: where col + row + time is not negative, the pattern
    repeats after [columns] time units. *)
Theorem gradient_period (columns rows : Z) (time : R) (col row : Z) :
  (0 < columns)%Z -> 0 <= IZR col + IZR row + time ->
  valueAt columns rows gradient (time + IZR columns) col row
  = valueAt columns rows gradient time col row /\
  countAt columns rows gradient (time + IZR columns) col row
  = countAt columns rows gradient time col row.
Proof.
  intros Hc Hnn. apply IZR_lt in Hc.
  unfold valueAt, countAt.
  replace (IZR col + IZR row + (time + IZR columns))
    with (IZR col + IZR row + time + IZR columns) by lra.
  rewrite rem_shift by lra. split; reflexivity.
Qed.

Lemma gradient_period_witness :
  (0 < 52)%Z /\ 0 <= IZR 3 + IZR 4 + 1 /\
  valueAt 52 20 gradient (1 + IZR 52) 3 4 = valueAt 52 20 gradient 1 3 4.
Proof.
  split; [lia |]. split; [lra |].
  apply (gradient_period 52 20 1 3 4); [lia | lra].
Defined.
End PatternSymmetries.

(* ===================================================================== *)
(** * Frames: range of the counts, size of the buffer *)
(* ===================================================================== *)

Section FrameRange.
Local Open Scope R_scope.
Import PatternEngine.

Lemma atan2_lower (y x : R) : - PI <= JS.atan2 y x.
Proof.
  pose proof PI_gt_3 as Hpi. unfold JS.atan2.
  destruct (Rlt_dec 0 x) as [Hx | Hx].
  - pose proof (atan_bound (y / x)). lra.
  - destruct (Rlt_dec x 0) as [Hx' | Hx'].
    + destruct (Rle_dec 0 y) as [Hy | Hy].
      * pose proof (atan_bound (y / x)). lra.
      * assert (Hq : 0 < y / x).
        { unfold Rdiv. apply Rmult_neg_neg; [lra |].
          apply Rinv_lt_0_compat. exact Hx'. }
        pose proof (atan_increasing 0 (y / x) Hq) as Hinc.
        rewrite atan_0 in Hinc. lra.
    + destruct (Rlt_dec 0 y); [lra |]. destruct (Rlt_dec y 0); lra.
Qed.

(** Spiral: from time 80 on, the sum under [%] is not negative at any
    cell (the angle is at least -PI and time * 0.05 at least 4), so the
    intensity is in [0,1) and the count in [0,9]. *)
Theorem spiral_in_range_from_time_80 (columns rows : Z) (time : R) (col row : Z) :
  80 <= time ->
  exists v n,
    valueAt columns rows spiral time col row = Some v /\ 0 <= v < 1 /\
    countAt columns rows spiral time col row = Some n /\ (0 <= n <= 9)%Z.
Proof.
  intros Ht. apply spiral_range_nonneg.
  pose proof (atan2_lower (IZR row - centerY rows) (IZR col - centerX columns)).
  pose proof (sqrt_pos ((IZR col - centerX columns) * (IZR col - centerX columns)
                        + (IZR row - centerY rows) * (IZR row - centerY rows))).
  pose proof PI_4. lra.
Qed.

Lemma spiral_in_range_from_time_80_witness :
  80 <= 80 /\
  exists v n,
    valueAt 52 20 spiral 80 26 9 = Some v /\ 0 <= v < 1 /\
    countAt 52 20 spiral 80 26 9 = Some n /\ (0 <= n <= 9)%Z.
Proof.
  split; [lra |]. apply (spiral_in_range_from_time_80 52 20 80 26 9). lra.
Defined.

(** The cells of a frame of the grid renderers. *)
Lemma in_generatePattern (columns rows : Z) (p : PatternType) (time : R)
    (cell : Cell) :
  In cell (Grid2D.generatePattern columns rows p time) ->
  (0 <= col cell < columns)%Z /\ (0 <= row cell < rows)%Z /\
  count cell = countAt columns rows p time (col cell) (row cell).
Proof.
  rewrite generatePattern_cells. intros Hin.
  apply in_flat_map in Hin. destruct Hin as (c & Hc & Hin).
  apply in_map_iff in Hin. destruct Hin as (r & <- & Hr).
  apply in_zrange in Hc. apply in_zrange in Hr. cbn. repeat split; lia.
Qed.

Lemma in_generatePattern_intro (columns rows : Z) (p : PatternType)
    (time : R) (c r : Z) :
  (0 <= c < columns)%Z -> (0 <= r < rows)%Z ->
  In (mkCell c r (countAt columns rows p time c r))
     (Grid2D.generatePattern columns rows p time).
Proof.
  intros Hc Hr. rewrite generatePattern_cells.
  apply in_flat_map. exists c. split; [apply in_zrange; lia |].
  apply in_map_iff. exists r. split; [reflexivity | apply in_zrange; lia].
Qed.

(** At a time that is not negative, every cell of every frame of the grid
    renderers has a count in [0,10] for Waves, Ripples, Gradient and
    Checkerboard, and for Spiral too once the time has reached 80. *)
Theorem frame_counts_in_range (columns rows : Z) (p : PatternType) (time : R) :
  0 <= time -> p <> spiral \/ 80 <= time ->
  forall cell, In cell (Grid2D.generatePattern columns rows p time) ->
    exists n, count cell = Some n /\ (0 <= n <= 10)%Z.
Proof.
  intros Ht Hp cell Hin.
  destruct (in_generatePattern _ _ _ _ _ Hin) as (Hc & Hr & ->).
  destruct p.
  - destruct (waves_range columns rows time (col cell) (row cell))
      as (v & n & _ & _ & En & Hn). eauto.
  - destruct (ripples_range columns rows time (col cell) (row cell))
      as (v & n & _ & _ & En & Hn). eauto.
  - destruct (gradient_range_nonneg columns rows time (col cell) (row cell))
      as (v & n & _ & _ & En & Hn).
    + lia.
    + assert (H1 : 0 <= IZR (col cell)) by (apply IZR_le; lia).
      assert (H2 : 0 <= IZR (row cell)) by (apply IZR_le; lia). lra.
    + exists n. split; [exact En | lia].
  - unfold countAt. destruct (isEven time (col cell) (row cell));
      eexists; (split; [reflexivity | lia]).
  - destruct Hp as [Hp | Hp]; [congruence |].
    destruct (spiral_in_range_from_time_80 columns rows time (col cell) (row cell) Hp)
      as (v & n & _ & _ & En & Hn).
    exists n. split; [exact En | lia].
Qed.

Lemma frame_counts_in_range_witness :
  0 <= 0 /\ (gradient <> spiral \/ 80 <= 0) /\
  In (mkCell 0 0 (countAt 1 1 gradient 0 0 0))
     (Grid2D.generatePattern 1 1 gradient 0) /\
  exists n, count (mkCell 0 0 (countAt 1 1 gradient 0 0 0)) = Some n /\
            (0 <= n <= 10)%Z.
Proof.
  split; [lra |]. split; [left; discriminate |].
  assert (Hin : In (mkCell 0 0 (countAt 1 1 gradient 0 0 0))
                   (Grid2D.generatePattern 1 1 gradient 0)).
  { apply in_generatePattern_intro; lia. }
  split; [exact Hin |].
  apply (frame_counts_in_range 1 1 gradient 0);
    [lra | left; discriminate | exact Hin].
Defined.

(** The hybrid generator never resizes its buffer: the array keeps its
    length, entries at indices from columns * rows on keep the value they
    had, and an index below both columns * rows and the length of the
    array holds the intensity of the cell it decodes to. *)
Theorem hybrid_buffer_keeps_length (columns rows : Z) (p : PatternType)
    (time : R) (data : list JS.number) :
  let data' := PatternGenerator.generatePattern columns rows p time data in
  length data' = length data /\
  (forall j : nat, (Z.to_nat (columns * rows) <= j)%nat -> data' !! j = data !! j) /\
  (forall j : nat, (j < Z.to_nat (columns * rows))%nat -> (j < length data)%nat ->
     data' !! j = Some (valueAt columns rows p time
                          (Z.rem (Z.of_nat j) columns) (Z.of_nat j / columns))).
Proof.
  intros data'. subst data'. split; [| split].
  - unfold PatternGenerator.generatePattern, JS.for_lt.
    apply length_for_from_fill.
  - intros j Hj. rewrite generatePattern_hybrid_lookup.
    destruct (decide _) as [H | _]; [lia | reflexivity].
  - intros j Hj Hl. rewrite generatePattern_hybrid_lookup.
    destruct (decide _) as [_ | H]; [reflexivity | lia].
Qed.

Lemma hybrid_buffer_keeps_length_witness :
  (Z.to_nat (1 * 1) <= 1)%nat /\
  PatternGenerator.generatePattern 1 1 waves 0 [None; Some 7] !! 1%nat
  = [None; Some 7] !! 1%nat.
Proof.
  split; [cbn; lia |].
  destruct (hybrid_buffer_keeps_length 1 1 waves 0 [None; Some 7])
    as (_ & Hkeep & _).
  apply Hkeep. cbn. lia.
Defined.
End FrameRange.

(* ===================================================================== *)
(** * Fragment shader: range of the value, checkerboard, colour bands *)
(* ===================================================================== *)

Section ShaderRange.
Local Open Scope R_scope.
Import PatternEngine.


(** GLSL [mod] by 2 of an integer is 0 or 1, never -1. *)
Lemma mod_two_IZR (z : Z) : GLSL.mod_ (IZR z) 2 = Some (IZR (z mod 2)).
Proof.
  unfold GLSL.mod_. destruct (Req_dec_T 2 0) as [E | _]; [lra |]. f_equal.
  pose proof (Z.div_mod z 2 ltac:(lia)) as Hdm.
  pose proof (Z.mod_pos_bound z 2 ltac:(lia)) as [Hm1 Hm2].
  assert (Hr : IZR z = 2 * IZR (z / 2) + IZR (z mod 2)).
  { rewrite Hdm at 1. rewrite plus_IZR, mult_IZR. reflexivity. }
  apply IZR_le in Hm1. apply IZR_lt in Hm2.
  rewrite (floor_unique (IZR z / 2) (z / 2)) by lra. lra.
Qed.



(** At the same time and the same cell the shader's Checkerboard is the
    negative of the CPU's: the shader returns the parity itself (1 on odd
    cells), the CPU returns 1 on even cells. *)
Theorem shader_checkerboard_is_inverted (columns rows col row : Z) (time : R) :
  (0 < columns)%Z -> (0 < rows)%Z ->
  let resolution := (IZR columns, IZR rows) in
  valueAt columns rows checkerboard time col row
  = Some (if isEven time col row then 1 else 0) /\
  Shader.getPatternValue resolution (Shader.cellUv resolution col row)
    (Shader.patternIndex checkerboard) time
  = Some (if isEven time col row then 0 else 1).
Proof.
  intros Hc Hr resolution. split; [reflexivity |].
  destruct (cellUv_scaled columns rows col row Hc Hr) as [Ex Ey].
  unfold resolution, Shader.getPatternValue, Shader.cellUv, Shader.patternIndex.
  cbn [Z.eqb fst snd]. rewrite Ex, Ey, !floor_IZR.
  replace (time * 0.2) with (time / 5) by lra.
  rewrite <- !plus_IZR. replace 2.0 with 2 by lra.
  rewrite mod_two_IZR, isEven_parity. f_equal.
  set (z := (col + row + JS.floor (time / 5))%Z).
  pose proof (Z.mod_pos_bound z 2 ltac:(lia)) as Hm.
  destruct (Z.eqb_spec (Z.rem z 2) 0) as [E | E].
  - replace (z mod 2)%Z with 0%Z; [reflexivity |].
    revert E. Z.quot_rem_to_equations. Z.div_mod_to_equations. lia.
  - replace (z mod 2)%Z with 1%Z; [reflexivity |].
    revert E. Z.quot_rem_to_equations. Z.div_mod_to_equations. lia.
Qed.

Lemma shader_checkerboard_is_inverted_witness :
  (0 < 100)%Z /\ (0 < 50)%Z /\
  Shader.getPatternValue (IZR 100, IZR 50) (Shader.cellUv (IZR 100, IZR 50) 3 4)
    (Shader.patternIndex checkerboard) 7
  = Some (if isEven 7 3 4 then 0 else 1).
Proof.
  split; [lia |]. split; [lia |].
  apply (shader_checkerboard_is_inverted 100 50 3 4 7); lia.
Defined.
End ShaderRange.

(* ===================================================================== *)
(** * Colour bands: shader table, legend, hue and lightness *)
(* ===================================================================== *)

Section ColorBands.
Import ColorMapper.

Lemma Qeq_bool_inject_Z (z k : Z) :
  Qeq_bool (inject_Z z) (inject_Z k) = (z =? k)%Z.
Proof.
  destruct (Z.eqb_spec z k) as [-> | Hne].
  - apply Qeq_bool_iff. reflexivity.
  - destruct (Qeq_bool (inject_Z z) (inject_Z k)) eqn:E; [| reflexivity].
    apply Qeq_bool_eq in E. unfold Qeq in E. cbn in E. lia.
Qed.

Lemma Qle_bool_inject_Z (z k : Z) :
  Qle_bool (inject_Z z) (inject_Z k) = (z <=? k)%Z.
Proof. unfold Qle_bool. cbn. rewrite !Z.mul_1_r. reflexivity. Qed.

(** The ladder on an integer count. *)
Lemma steps_inject_Z {A : Type} (z : Z) (c0 c2 c5 c8 c10 : A) :
  steps (inject_Z z) c0 c2 c5 c8 c10
  = if (z =? 0)%Z then c0
    else if (z <=? 2)%Z then c2
    else if (z <=? 5)%Z then c5
    else if (z <=? 8)%Z then c8
    else c10.
Proof.
  unfold steps.
  change 0%Q with (inject_Z 0). change 2%Q with (inject_Z 2).
  change 5%Q with (inject_Z 5). change 8%Q with (inject_Z 8).
  rewrite Qeq_bool_inject_Z, !Qle_bool_inject_Z. reflexivity.
Qed.

(** On a stepped theme the colour of an integer count is the legend
    colour of its band. *)
Lemma stepped_color_band (theme : ColorTheme) (z : Z) :
  Legend.stepped theme = true ->
  getColor_shader (inject_Z z) theme
  = if (z =? 0)%Z then getColor_shader 0 theme
    else if (z <=? 2)%Z then getColor_shader 2 theme
    else if (z <=? 5)%Z then getColor_shader 5 theme
    else if (z <=? 8)%Z then getColor_shader 8 theme
    else getColor_shader 10 theme.
Proof.
  intros Hs. unfold getColor_shader.
  destruct theme; try discriminate Hs; cbn [themeColor];
    rewrite steps_inject_Z; reflexivity.
Qed.

(** For a stepped theme every colour that [getColor] can return, for any
    count whatever, is one of the five colours of the legend; this holds for
    the plain and for the clamping [getColor]. *)
Theorem legend_covers_stepped_themes (theme : ColorTheme) (count : Q) :
  Legend.stepped theme = true ->
  In (getColor_shader count theme) (Legend.getThemeColors getColor_shader theme) /\
  In (getColor_hybrid count theme) (Legend.getThemeColors getColor_hybrid theme).
Proof.
  intros Hs. split.
  - unfold getColor_shader, themeColor, steps.
    destruct theme; try discriminate Hs;
      destruct (Qeq_bool count 0), (Qle_bool count 2), (Qle_bool count 5),
        (Qle_bool count 8); cbn; tauto.
  - unfold getColor_hybrid, themeColor, steps.
    generalize (inject_Z (clamp count)). intros c.
    destruct theme; try discriminate Hs;
      destruct (Qeq_bool c 0), (Qle_bool c 2), (Qle_bool c 5), (Qle_bool c 8);
      cbn; tauto.
Qed.

Lemma legend_covers_stepped_themes_witness :
  Legend.stepped ocean = true /\
  In (getColor_shader (7 # 2) ocean) (Legend.getThemeColors getColor_shader ocean).
Proof.
  split; [reflexivity |].
  exact (proj1 (legend_covers_stepped_themes ocean (7 # 2) eq_refl)).
Defined.

(** The continuous themes are not covered: count 1 has a Rainbow hue that
    the legend does not show. *)
Lemma legend_misses_rainbow :
  ~ In (getColor_shader 1 rainbow) (Legend.getThemeColors getColor_shader rainbow).
Proof. cbn. intros H. intuition discriminate. Qed.


(** Without the clamp the same formulas leave the valid ranges: count 12
    gives a negative lightness and count -3 a negative hue. *)
Lemma unclamped_lightness_and_hue :
  getColor_shader 12 monochrome = Hsl 0 0 (-6) /\
  getColor_shader (-3) rainbow = Hsl (-90) 80 60.
Proof. split; reflexivity. Qed.

(** The label and the GitHub colour of a count always belong to the same
    band, whatever the count: the tooltip never names a band other than
    the one the tile is painted in. *)
Theorem label_matches_colour_band (count : Q) :
  In (getIntensityLabel count, getColor_grid2d count)
     [ ("No activity"%string, Hex "#ebedf0");
       ("Low activity"%string, Hex "#9be9a8");
       ("Medium activity"%string, Hex "#40c463");
       ("High activity"%string, Hex "#30a14e");
       ("Very high activity"%string, Hex "#216e39") ] /\
  (getIntensityLabel count = "No activity"%string <-> (count == 0)%Q).
Proof.
  unfold getIntensityLabel, getColor_grid2d, steps. split.
  - destruct (Qeq_bool count 0); [cbn; tauto |].
    destruct (Qle_bool count 2); [cbn; tauto |].
    destruct (Qle_bool count 5); [cbn; tauto |].
    destruct (Qle_bool count 8); cbn; tauto.
  - destruct (Qeq_bool count 0) eqn:E.
    + apply Qeq_bool_eq in E. tauto.
    + apply Qeq_bool_neq in E.
      destruct (Qle_bool count 2); [split; [discriminate | tauto] |].
      destruct (Qle_bool count 5); [split; [discriminate | tauto] |].
      destruct (Qle_bool count 8); split; (discriminate || tauto).
Qed.
End ColorBands.

Section ShaderBands.
Local Open Scope R_scope.
Import ColorMapper.

Lemma getThemeColors_table (theme : ColorTheme) :
  Legend.getThemeColors getColor_shader theme
  = [ getColor_shader 0 theme; getColor_shader 2 theme; getColor_shader 5 theme;
      getColor_shader 8 theme; getColor_shader 10 theme ].
Proof. reflexivity. Qed.

(** The shader picks its colour from thresholds 0.05, 0.25, 0.5 and 0.75 on
    the intensity, the CPU from the count [Math.floor(value * 10)].  For a
    stepped theme and an intensity that is not negative, both give the same
    colour on [0,0.05), [0.1,0.25), [0.3,0.5), [0.6,0.75) and from 0.9 on;
    on the four gaps in between the shader already shows the colour of the
    next band (that of count 2, 5, 8, 10) while the CPU shows the colour of
    the band below (that of count 0, 2, 5, 8). *)
Theorem shader_bands_against_cpu_bands (theme : ColorTheme) (v : R) :
  Legend.stepped theme = true -> 0 <= v ->
  let table := Legend.getThemeColors getColor_shader theme in
  let cpu := getColor_shader (inject_Z (JS.floor (v * 10))) theme in
  (v < 0.05 \/ 0.1 <= v < 0.25 \/ 0.3 <= v < 0.5 \/ 0.6 <= v < 0.75 \/ 0.9 <= v ->
   ShaderColor.getThemeColor table v = Some cpu) /\
  (0.05 <= v < 0.1 ->
   ShaderColor.getThemeColor table v = Some (getColor_shader 2 theme) /\
   cpu = getColor_shader 0 theme) /\
  (0.25 <= v < 0.3 ->
   ShaderColor.getThemeColor table v = Some (getColor_shader 5 theme) /\
   cpu = getColor_shader 2 theme) /\
  (0.5 <= v < 0.6 ->
   ShaderColor.getThemeColor table v = Some (getColor_shader 8 theme) /\
   cpu = getColor_shader 5 theme) /\
  (0.75 <= v < 0.9 ->
   ShaderColor.getThemeColor table v = Some (getColor_shader 10 theme) /\
   cpu = getColor_shader 8 theme).
Proof.
  intros Hs Hv table cpu. subst table cpu.
  rewrite getThemeColors_table, (stepped_color_band theme _ Hs).
  set (k := JS.floor (v * 10)).
  assert (Hk0 : (0 <= k)%Z) by (apply floor_le; lra).
  assert (Hlow : forall z : Z, IZR z <= v * 10 -> (z <= k)%Z)
    by (intros z Hz; apply floor_le; exact Hz).
  assert (Hupp : forall z : Z, v * 10 < IZR z -> (k < z)%Z)
    by (intros z Hz; apply floor_lt; exact Hz).
  unfold ShaderColor.getThemeColor.
  repeat split.
  - intros Hzone.
    destruct (Rlt_dec v 0.05) as [H1 | H1].
    { pose proof (Hupp 1%Z ltac:(lra)).
      destruct (Z.eqb_spec k 0); [reflexivity | lia]. }
    destruct (Rlt_dec v 0.25) as [H2 | H2].
    { pose proof (Hlow 1%Z ltac:(lra)). pose proof (Hupp 3%Z ltac:(lra)).
      destruct (Z.eqb_spec k 0); [lia |].
      destruct (Z.leb_spec k 2); [reflexivity | lia]. }
    destruct (Rlt_dec v 0.5) as [H3 | H3].
    { pose proof (Hlow 3%Z ltac:(lra)). pose proof (Hupp 5%Z ltac:(lra)).
      destruct (Z.eqb_spec k 0); [lia |].
      destruct (Z.leb_spec k 2); [lia |].
      destruct (Z.leb_spec k 5); [reflexivity | lia]. }
    destruct (Rlt_dec v 0.75) as [H4 | H4].
    { pose proof (Hlow 6%Z ltac:(lra)). pose proof (Hupp 8%Z ltac:(lra)).
      destruct (Z.eqb_spec k 0); [lia |].
      destruct (Z.leb_spec k 2); [lia |].
      destruct (Z.leb_spec k 5); [lia |].
      destruct (Z.leb_spec k 8); [reflexivity | lia]. }
    pose proof (Hlow 9%Z ltac:(lra)).
    destruct (Z.eqb_spec k 0); [lia |].
    destruct (Z.leb_spec k 2); [lia |].
    destruct (Z.leb_spec k 5); [lia |].
    destruct (Z.leb_spec k 8); [lia | reflexivity].
  - destruct (Rlt_dec v 0.05); [lra |].
    destruct (Rlt_dec v 0.25); [reflexivity | lra].
  - pose proof (Hupp 1%Z ltac:(lra)).
    destruct (Z.eqb_spec k 0); [reflexivity | lia].
  - destruct (Rlt_dec v 0.05); [lra |]. destruct (Rlt_dec v 0.25); [lra |].
    destruct (Rlt_dec v 0.5); [reflexivity | lra].
  - pose proof (Hlow 2%Z ltac:(lra)). pose proof (Hupp 3%Z ltac:(lra)).
    destruct (Z.eqb_spec k 0); [lia |].
    destruct (Z.leb_spec k 2); [reflexivity | lia].
  - destruct (Rlt_dec v 0.05); [lra |]. destruct (Rlt_dec v 0.25); [lra |].
    destruct (Rlt_dec v 0.5); [lra |].
    destruct (Rlt_dec v 0.75); [reflexivity | lra].
  - pose proof (Hlow 5%Z ltac:(lra)). pose proof (Hupp 6%Z ltac:(lra)).
    destruct (Z.eqb_spec k 0); [lia |].
    destruct (Z.leb_spec k 2); [lia |].
    destruct (Z.leb_spec k 5); [reflexivity | lia].
  - destruct (Rlt_dec v 0.05); [lra |]. destruct (Rlt_dec v 0.25); [lra |].
    destruct (Rlt_dec v 0.5); [lra |].
    destruct (Rlt_dec v 0.75); [lra | reflexivity].
  - pose proof (Hlow 7%Z ltac:(lra)). pose proof (Hupp 9%Z ltac:(lra)).
    destruct (Z.eqb_spec k 0); [lia |].
    destruct (Z.leb_spec k 2); [lia |].
    destruct (Z.leb_spec k 5); [lia |].
    destruct (Z.leb_spec k 8); [reflexivity | lia].
Qed.

Lemma shader_bands_against_cpu_bands_witness :
  Legend.stepped github = true /\ 0 <= 0.07 /\ 0.05 <= 0.07 < 0.1 /\
  ShaderColor.getThemeColor (Legend.getThemeColors getColor_shader github) 0.07
  = Some (getColor_shader 2 github) /\
  getColor_shader (inject_Z (JS.floor (0.07 * 10))) github = getColor_shader 0 github.
Proof.
  split; [reflexivity |]. split; [lra |]. split; [lra |].
  destruct (shader_bands_against_cpu_bands github 0.07 eq_refl ltac:(lra))
    as (_ & Hgap & _).
  apply Hgap. lra.
Defined.
End ShaderBands.

(* ===================================================================== *)
(** * Cube transforms *)
(* ===================================================================== *)

Section CubeFacts.
Local Open Scope R_scope.

(** The cubes of heat-map-hybrid.tsx are never lower than 0.05, whatever
    the stored intensity (a negative one included); a cube whose count is
    at least 1 stands on the ground plane, with its base at height 0 and
    its top at count * 0.05. *)
Theorem hybrid_cube_height (vw vh : R) (columns rows col row : Z) (value : R) :
  let t := HybridCubes.instance vw vh columns rows col row value in
  let count := JS.floor (value * 10) in
  0.05 <= yOf (scale t) /\
  ((1 <= count)%Z ->
   yOf (position t) - yOf (scale t) / 2 = 0 /\
   yOf (position t) + yOf (scale t) / 2 = IZR count * 0.05).
Proof.
  intros t count. subst t. unfold HybridCubes.instance, yOf. cbn [position scale fst snd].
  fold count. split.
  - apply Rmax_r.
  - intros Hc. apply IZR_le in Hc.
    rewrite Rmax_left by lra. lra.
Qed.

Lemma hybrid_cube_height_witness :
  (1 <= JS.floor (0.35 * 10))%Z /\
  yOf (position (HybridCubes.instance 10 5 100 50 3 4 0.35))
  - yOf (scale (HybridCubes.instance 10 5 100 50 3 4 0.35)) / 2 = 0.
Proof.
  assert (Hc : (1 <= JS.floor (0.35 * 10))%Z) by (apply floor_le; lra).
  split; [exact Hc |].
  destruct (hybrid_cube_height 10 5 100 50 3 4 0.35) as (_ & Hbase).
  destruct (Hbase Hc) as (Hb & _). exact Hb.
Defined.

(** For a count that is not negative, [y || 0.05] of heat-map-shader.tsx
    and [Math.max(y, 0.05)] of heat-map-hybrid.tsx give the same transform;
    for a negative count the instanced cube of heat-map-shader.tsx gets a
    negative vertical scale. *)
Theorem instanced_cubes_against_hybrid_cubes (vw vh : R)
    (columns rows col row : Z) (value : R) :
  let count := JS.floor (value * 10) in
  ((0 <= count)%Z ->
   InstancedCubes.instance vw vh columns rows col row count
   = HybridCubes.instance vw vh columns rows col row value) /\
  ((count < 0)%Z ->
   yOf (scale (InstancedCubes.instance vw vh columns rows col row count)) < 0 /\
   yOf (scale (HybridCubes.instance vw vh columns rows col row value)) = 0.05).
Proof.
  intros count. split.
  - intros Hc. unfold InstancedCubes.instance, HybridCubes.instance. fold count.
    f_equal. f_equal. f_equal.
    unfold InstancedCubes.or_else.
    destruct (Req_dec_T (IZR count * 0.05) 0) as [E | E].
    + rewrite E. rewrite Rmax_right by lra. reflexivity.
    + assert (H1 : (1 <= count)%Z).
      { destruct (Z.eq_dec count 0%Z) as [E0 | Hne];
          [exfalso; apply E; rewrite E0; lra | lia]. }
      apply IZR_le in H1. rewrite Rmax_left by lra. reflexivity.
  - intros Hc. assert (H1 : (count <= -1)%Z) by lia. apply IZR_le in H1.
    unfold InstancedCubes.instance, HybridCubes.instance, yOf.
    cbn [scale fst snd]. fold count. split.
    + unfold InstancedCubes.or_else.
      destruct (Req_dec_T (IZR count * 0.05) 0) as [E | E]; lra.
    + apply Rmax_right. lra.
Qed.

Lemma instanced_cubes_against_hybrid_cubes_witness :
  (0 <= JS.floor (0.35 * 10))%Z /\
  InstancedCubes.instance 10 5 100 50 3 4 (JS.floor (0.35 * 10))
  = HybridCubes.instance 10 5 100 50 3 4 0.35.
Proof.
  assert (Hc : (0 <= JS.floor (0.35 * 10))%Z) by (apply floor_le; lra).
  split; [exact Hc |].
  exact (proj1 (instanced_cubes_against_hybrid_cubes 10 5 100 50 3 4 0.35) Hc).
Defined.

(** The cubes are laid out inside the box of 80% of the viewport and
    centred on the origin: the centre of the cube of column [col] lies
    strictly between -width/2 and width/2, consecutive columns are one cell
    width apart, and the columns [col] and [columns - 1 - col] are mirror
    images; the same holds for the rows. *)
Theorem cube_layout_centred (vw vh : R) (columns rows col row : Z) (value : R) :
  (0 < columns)%Z -> (0 < rows)%Z -> 0 < vw -> 0 < vh ->
  (0 <= col < columns)%Z -> (0 <= row < rows)%Z ->
  let x c := xOf (position (HybridCubes.instance vw vh columns rows c row value)) in
  let z r := zOf (position (HybridCubes.instance vw vh columns rows col r value)) in
  (- (vw * 0.8) / 2 < x col < vw * 0.8 / 2 /\
   x (col + 1)%Z - x col = HybridCubes.cellWidth vw columns /\
   x col + x (columns - 1 - col)%Z = 0) /\
  (- (vh * 0.8) / 2 < z row < vh * 0.8 / 2 /\
   z (row + 1)%Z - z row = HybridCubes.cellHeight vh rows /\
   z row + z (rows - 1 - row)%Z = 0).
Proof.
  intros Hc Hr Hvw Hvh Hcol Hrow x z. subst x z.
  unfold HybridCubes.instance, xOf, zOf. cbn [position fst snd].
  unfold HybridCubes.cellWidth, HybridCubes.cellHeight,
    HybridCubes.width, HybridCubes.height.
  rewrite !plus_IZR, !minus_IZR.
  apply IZR_lt in Hc. apply IZR_lt in Hr.
  destruct Hcol as [Hc0 Hc1]. destruct Hrow as [Hr0 Hr1].
  apply IZR_le in Hc0. apply IZR_le in Hr0.
  assert (Hc1' : IZR col <= IZR columns - 1)
    by (rewrite <- minus_IZR; apply IZR_le; lia).
  assert (Hr1' : IZR row <= IZR rows - 1)
    by (rewrite <- minus_IZR; apply IZR_le; lia).
  set (cw := vw * 0.8 / IZR columns).
  set (ch := vh * 0.8 / IZR rows).
  assert (Ecw : cw * IZR columns = vw * 0.8) by (unfold cw; field; lra).
  assert (Ech : ch * IZR rows = vh * 0.8) by (unfold ch; field; lra).
  assert (Hcw : 0 < cw) by (unfold cw; apply Rdiv_lt_0_compat; lra).
  assert (Hch : 0 < ch) by (unfold ch; apply Rdiv_lt_0_compat; lra).
  assert (Pc0 : 0 <= IZR col * cw) by (apply Rmult_le_pos; lra).
  assert (Pr0 : 0 <= IZR row * ch) by (apply Rmult_le_pos; lra).
  assert (Pc1 : IZR col * cw <= (IZR columns - 1) * cw)
    by (apply Rmult_le_compat_r; lra).
  assert (Pr1 : IZR row * ch <= (IZR rows - 1) * ch)
    by (apply Rmult_le_compat_r; lra).
  repeat split; lra.
Qed.

Lemma cube_layout_centred_witness :
  (0 < 100)%Z /\ (0 < 50)%Z /\ 0 < 10 /\ 0 < 5 /\
  (0 <= 3 < 100)%Z /\ (0 <= 4 < 50)%Z /\
  xOf (position (HybridCubes.instance 10 5 100 50 3 4 0.35))
  + xOf (position (HybridCubes.instance 10 5 100 50 (100 - 1 - 3) 4 0.35)) = 0.
Proof.
  split; [lia |]. split; [lia |]. split; [lra |]. split; [lra |].
  split; [lia |]. split; [lia |].
  destruct (cube_layout_centred 10 5 100 50 3 4 0.35
              ltac:(lia) ltac:(lia) ltac:(lra) ltac:(lra) ltac:(lia) ltac:(lia))
    as ((_ & _ & Hsym) & _).
  exact Hsym.
Defined.
End CubeFacts.

(* ===================================================================== *)
(** * The renderers against each other *)
(* ===================================================================== *)

Section CrossRenderer.
Local Open Scope Z_scope.
Import ColorMapper.





(** On the integer counts 0 to 10 the clamping [getColor] and the plain
    [getColor] return the same colour for every theme, and for the GitHub
    theme that is also the colour of [getColor] of heat-map.tsx. *)
Theorem getColor_variants_agree_in_range (z : Z) (theme : ColorTheme) :
  0 <= z <= 10 ->
  getColor_hybrid (inject_Z z) theme = getColor_shader (inject_Z z) theme /\
  getColor_shader (inject_Z z) github = getColor_grid2d (inject_Z z).
Proof.
  intros Hz. split; [| reflexivity].
  unfold getColor_hybrid, getColor_shader.
  rewrite clamp_inject_Z. replace (Z.max 0 (Z.min 10 z)) with z by lia.
  reflexivity.
Qed.

Lemma getColor_variants_agree_in_range_witness :
  0 <= 7 <= 10 /\
  getColor_hybrid (inject_Z 7) rainbow = getColor_shader (inject_Z 7) rainbow.
Proof.
  split; [lia |].
  exact (proj1 (getColor_variants_agree_in_range 7 rainbow ltac:(lia))).
Defined.
End CrossRenderer.
